(** * openldap.py: batch management of directory users

    A shallow embedding of [openldap.py] (Python 2, python-ldap) and of the
    part of an LDAP directory the script talks to, followed by the
    properties of the script that the specification states.

    Python strings are [string]; the script's module-level settings are a
    record; the directory, the faults to come and a count of the binds not
    yet answered by an unbind form an explicit world that every function
    threads; what the script prints, logs, sends to the directory and
    writes to the report is collected as a list of events. *)

From Stdlib Require Import String Ascii List Bool Arith Lia Permutation.
Import ListNotations.
Local Open Scope string_scope.
Local Open Scope bool_scope.

Set Implicit Arguments.

(* ===================================================================== *)
(** * Text helpers (Python string operations used by the script)         *)
(* ===================================================================== *)

Module Text.

(** [s.startswith(p)]. *)
Fixpoint starts_with (p s : string) : bool :=
  match p, s with
  | EmptyString, _ => true
  | String a p', String b s' => Ascii.eqb a b && starts_with p' s'
  | String _ _, EmptyString => false
  end.

(** [p in s] on strings: [p] occurs in [s] at some position. *)
Fixpoint contains (p s : string) : bool :=
  starts_with p s ||
  match s with
  | EmptyString => false
  | String _ s' => contains p s'
  end.

(** [s[0:-4]]: a negative bound counts from the end and is clamped at 0,
    so strings of fewer than four characters give the empty string. *)
Definition slice_0_m4 (s : string) : string :=
  substring 0 (String.length s - 4) s.

(** [s] without the prefix [p], when it has it. *)
Fixpoint strip_prefix (p s : string) : option string :=
  match p, s with
  | EmptyString, _ => Some s
  | String a p', String b s' =>
      if Ascii.eqb a b then strip_prefix p' s' else None
  | String _ _, EmptyString => None
  end.

(** [s] without the suffix [suf], when it has it. *)
Definition strip_suffix (suf s : string) : option string :=
  let n := String.length s - String.length suf in
  if Nat.leb (String.length suf) (String.length s)
     && String.eqb (substring n (String.length suf) s) suf
  then Some (substring 0 n s) else None.

(** Cut [s] in front of its first comma. *)
Fixpoint split_comma (s : string) : string * string :=
  match s with
  | EmptyString => (EmptyString, EmptyString)
  | String c s' =>
      if Ascii.eqb c "," then (EmptyString, s)
      else let (a, b) := split_comma s' in (String c a, b)
  end.

(** No comma in [s]. *)
Fixpoint comma_free (s : string) : bool :=
  match s with
  | EmptyString => true
  | String c s' => negb (Ascii.eqb c ",") && comma_free s'
  end.

(** The words of the specification, as propositions. *)

(** "the pattern occurs anywhere in the username" *)
Definition occurs_in (p s : string) : Prop :=
  exists pre post, s = pre ++ p ++ post.

(** "[a] is the username with its last 4 characters stripped"; a name of
    fewer than four characters loses all of them. *)
Definition without_last4 (s a : string) : Prop :=
  exists t, s = a ++ t /\ String.length t = Nat.min 4 (String.length s).

End Text.

(* ===================================================================== *)
(** * Settings ([openldap_settings.py], read by [readConfig])            *)
(* ===================================================================== *)

Record Settings := {
  LDAPSERVER : string;
  USER : string;
  PASSWORD : string;
  baseDN : string;
  MAILDOMAIN : string;
  STUPATTERN : string;
  GSTPATTERN : string;
  STUDENTOU : string;
  GUESTOU : string;
  EMPOU : string
}.

(* ===================================================================== *)
(** * Pure functions of the script                                       *)
(* ===================================================================== *)

Section Naming.

Variable cfg : Settings.

(** [getUserType(username)] *)
Definition getUserType (username : string) : string :=
  if Text.contains (STUPATTERN cfg) username then "STU"
  else if String.eqb (GSTPATTERN cfg) (Text.slice_0_m4 username) then "GST"
  else "EMP".

End Naming.

(* ===================================================================== *)
(** * The directory and the world the script runs in                     *)
(* ===================================================================== *)

(** A directory entry named by its uid: its DN is [uid=<e_uid><e_parent>],
    where [e_parent] is the DN of the container with its leading comma.
    The uid attribute has the RDN's value; the object classes are kept
    apart from the other attributes. *)
Record entry := {
  e_uid : string;
  e_parent : string;
  e_classes : list string;
  e_attrs : list (string * list string)
}.

Definition dn_of (e : entry) : string := "uid=" ++ e_uid e ++ e_parent e.

(** The exceptions that can arise: python-ldap's [ldap.LDAPError] (with the
    server's or the transport's description) and Python's
    [UnboundLocalError] for a local variable read before any assignment. *)
Inductive exn :=
| LDAPError (desc : string)
| UnboundLocalError (var : string).

Definition is_LDAPError (e : exn) : bool :=
  match e with LDAPError _ => true | UnboundLocalError _ => false end.

(** [str(e)], as the script formats it into its messages. *)
Definition exn_text (e : exn) : string :=
  match e with
  | LDAPError d => d
  | UnboundLocalError v =>
      "local variable '" ++ v ++ "' referenced before assignment"
  end.

Inductive mod_op := MOD_ADD | MOD_DELETE | MOD_REPLACE.

Definition modification : Type := mod_op * string * string.

(** Requests sent over a connection. *)
Inductive ldap_op :=
| Bind (server user : string)
| Search (base filter : string)
| AddEntry (dn : string) (ldif : list (string * list string))
| Rename (dn newrdn : string)
| Modify (dn : string) (mods : list modification)
| Delete (dn : string)
| Unbind.

Inductive level := DEBUG | INFO | ERROR | CRITICAL.

(** Everything the script does that can be observed from outside. *)
Inductive event :=
| EvLdap (o : ldap_op) (ok : bool)     (* request, and whether it succeeded *)
| EvPrint (s : string)                 (* print(...) *)
| EvLog (lvl : level) (s : string)     (* logging.<lvl>(...) *)
| EvWriteRow (cols : list string).     (* writer.writerow(...) *)

(** The world: the directory's entries, the faults to come (one flag per
    request, [true] makes the request raise [ldap.LDAPError] whatever the
    directory holds: the server is out of reach, or it refuses a filter or
    a DN that the directory below would take; none left means no fault)
    and the number of binds that no unbind request has answered yet. The
    library also closes a connection when its object is deallocated; the
    count does not follow that. *)
Record World := {
  dir : list entry;
  faults : list bool;
  open_conns : nat
}.

Definition next_fault (w : World) : bool :=
  match faults w with
  | true :: _ => true
  | _ => false
  end.

(** The world once the next request has been sent, with directory [d] and
    [n] open connections. *)
Definition sent (w : World) (d : list entry) (n : nat) : World :=
  {| dir := d; faults := tl (faults w); open_conns := n |}.

(* ===================================================================== *)
(** * Statements: state, events, early return and exceptions             *)
(* ===================================================================== *)

(** How a block of statements ends inside a function returning [R]: it
    falls through with a value, executes [return r], or raises. *)
Inductive outcome (R A : Type) :=
| Next (a : A)
| Return (r : R)
| Raise (e : exn).

Arguments Next {R A} a.
Arguments Return {R A} r.
Arguments Raise {R A} e.

Definition M (R A : Type) : Type := World -> outcome R A * World * list event.

Definition ret {R A} (a : A) : M R A := fun w => (Next a, w, []).

Definition return_ {R A} (r : R) : M R A := fun w => (Return r, w, []).

Definition raise {R A} (e : exn) : M R A := fun w => (Raise e, w, []).

Definition bind {R A B} (m : M R A) (k : A -> M R B) : M R B :=
  fun w =>
    match m w with
    | (Next a, w1, ev1) =>
        match k a w1 with
        | (o, w2, ev2) => (o, w2, (ev1 ++ ev2)%list)
        end
    | (Return r, w1, ev1) => (Return r, w1, ev1)
    | (Raise e, w1, ev1) => (Raise e, w1, ev1)
    end.

Notation "x <- m ;; k" := (bind m (fun x => k))
  (at level 61, m at next level, right associativity).
Notation "m ;; k" := (bind m (fun _ => k))
  (at level 61, right associativity).

(** [try: body except ...: handler]; the handler re-raises what its
    clauses do not match. *)
Definition try_except {R A} (body : M R A) (handler : exn -> M R A) : M R A :=
  fun w =>
    match body w with
    | (Raise e, w1, ev1) =>
        match handler e w1 with
        | (o, w2, ev2) => (o, w2, (ev1 ++ ev2)%list)
        end
    | r => r
    end.

(** A function call: [return r] in the body is the call's value. *)
Definition def {R R'} (body : M R R) : M R' R :=
  fun w =>
    match body w with
    | (Next r, w1, ev) => (Next r, w1, ev)
    | (Return r, w1, ev) => (Next r, w1, ev)
    | (Raise e, w1, ev) => (Raise e, w1, ev)
    end.

Definition emit {R} (e : event) : M R unit := fun w => (Next tt, w, [e]).

Definition print {R} (s : string) : M R unit := emit (EvPrint s).

Definition logging_info {R} (s : string) : M R unit := emit (EvLog INFO s).

Definition logging_error {R} (s : string) : M R unit := emit (EvLog ERROR s).

Definition logging_critical {R} (s : string) : M R unit :=
  emit (EvLog CRITICAL s).

(** Reading a local variable that may not have been assigned yet. *)
Definition read_local {R A} (name : string) (v : option A) : M R A :=
  match v with
  | Some a => ret a
  | None => raise (UnboundLocalError name)
  end.

(* ===================================================================== *)
(** * The directory server                                               *)
(* ===================================================================== *)

(** What the server does with a request, on the entries it holds. The
    whole directory lies under the search base; values are compared as
    they are written (no folding of case, no wildcard); in a DN only the
    comma is special; a filter of one of the two shapes is taken whatever
    its value; schema checks are left out. What a server refuses beyond
    this reaches the script as a fault of the world. An error carries the
    server's description. *)
Module Directory.

(** The two filters the script sends, [uid=<v>] and
    [(&(uid=<v>)(objectClass=posixAccount))], once parsed. *)
Inductive filter :=
| FUid (v : string)
| FUidPosix (v : string).

Definition parse_filter (f : string) : option filter :=
  match Text.strip_prefix "(&(uid=" f with
  | Some r =>
      option_map FUidPosix
        (Text.strip_suffix ")(objectClass=posixAccount))" r)
  | None => option_map FUid (Text.strip_prefix "uid=" f)
  end.

Definition is_posix (e : entry) : bool :=
  existsb (String.eqb "posixAccount") (e_classes e).

Definition matches (f : filter) (e : entry) : bool :=
  match f with
  | FUid v => String.eqb (e_uid e) v
  | FUidPosix v => String.eqb (e_uid e) v && is_posix e
  end.

(** A DN [uid=<u><p>] in its two parts, [p] empty or led by a comma. *)
Definition parse_dn (dn : string) : option (string * string) :=
  match Text.strip_prefix "uid=" dn with
  | Some r =>
      let (u, p) := Text.split_comma r in
      if String.eqb u "" then None else Some (u, p)
  | None => None
  end.

Definition at_dn (dn : string) (e : entry) : bool :=
  String.eqb (dn_of e) dn.

Definition is_objectclass (attr : string) : bool :=
  String.eqb attr "objectclass" || String.eqb attr "objectClass".

Fixpoint attr_values (attr : string) (l : list (string * list string))
  : list string :=
  match l with
  | [] => []
  | (k, vs) :: l' =>
      if String.eqb k attr then vs else attr_values attr l'
  end.

Fixpoint set_attr (attr : string) (vs : list string)
                  (l : list (string * list string))
  : list (string * list string) :=
  match l with
  | [] => [(attr, vs)]
  | (k, old) :: l' =>
      if String.eqb k attr then (attr, vs) :: l'
      else (k, old) :: set_attr attr vs l'
  end.

Definition search (filter : string) (d : list entry)
  : string + list entry :=
  match parse_filter filter with
  | None => inl "Bad search filter"
  | Some f => inr (List.filter (matches f) d)
  end.

Definition add (dn : string) (ldif : list (string * list string))
               (d : list entry) : string + list entry :=
  match parse_dn dn with
  | None => inl "Invalid DN syntax"
  | Some (u, p) =>
      if existsb (at_dn dn) d then inl "Already exists"
      else if negb (existsb (String.eqb u) (attr_values "uid" ldif))
      then inl "Naming violation"
      else
        inr (d ++ [ {| e_uid := u;
                       e_parent := p;
                       e_classes := attr_values "objectclass" ldif;
                       e_attrs :=
                         List.filter
                           (fun kv => negb (is_objectclass (fst kv)
                                            || String.eqb (fst kv) "uid"))
                           ldif |} ])%list
  end.

Definition with_uid (v : string) (e : entry) : entry :=
  {| e_uid := v; e_parent := e_parent e;
     e_classes := e_classes e; e_attrs := e_attrs e |}.

(** [rename_s(dn, newrdn)] with python-ldap's default [delold=1]: the
    entry keeps its container and its uid becomes the new RDN's value. *)
Definition rename (dn newrdn : string) (d : list entry)
  : string + list entry :=
  match find (at_dn dn) d with
  | None => inl "No such object"
  | Some e =>
      match Text.strip_prefix "uid=" newrdn with
      | None => inl "Invalid DN syntax"
      | Some v =>
          if String.eqb v "" || negb (Text.comma_free v)
          then inl "Invalid DN syntax"
          else if existsb (at_dn ("uid=" ++ v ++ e_parent e)) d
          then inl "Already exists"
          else inr (map (fun e' => if at_dn dn e' then with_uid v e'
                                   else e') d)
      end
  end.

Definition apply_mod (e : entry) (m : modification) : string + entry :=
  let '(op, attr, value) := m in
  if String.eqb attr "uid" then
    match op with
    | MOD_REPLACE =>
        if String.eqb value (e_uid e) then inr e
        else inl "Not allowed on RDN"
    | _ => inl "Not allowed on RDN"
    end
  else if is_objectclass attr then
    let cs :=
      match op with
      | MOD_REPLACE => [value]
      | MOD_ADD => (e_classes e ++ [value])%list
      | MOD_DELETE =>
          List.filter (fun c => negb (String.eqb c value)) (e_classes e)
      end in
    inr {| e_uid := e_uid e; e_parent := e_parent e;
           e_classes := cs; e_attrs := e_attrs e |}
  else
    let old := attr_values attr (e_attrs e) in
    let vs :=
      match op with
      | MOD_REPLACE => [value]
      | MOD_ADD => (old ++ [value])%list
      | MOD_DELETE =>
          List.filter (fun c => negb (String.eqb c value)) old
      end in
    inr {| e_uid := e_uid e; e_parent := e_parent e;
           e_classes := e_classes e;
           e_attrs := set_attr attr vs (e_attrs e) |}.

Fixpoint apply_mods (e : entry) (ms : list modification)
  : string + entry :=
  match ms with
  | [] => inr e
  | m :: ms' =>
      match apply_mod e m with
      | inl err => inl err
      | inr e' => apply_mods e' ms'
      end
  end.

Fixpoint replace_at (dn : string) (e1 : entry) (d : list entry)
  : list entry :=
  match d with
  | [] => []
  | e :: d' => if at_dn dn e then e1 :: d' else e :: replace_at dn e1 d'
  end.

Definition modify (dn : string) (mods : list modification)
                  (d : list entry) : string + list entry :=
  match find (at_dn dn) d with
  | None => inl "No such object"
  | Some e =>
      match apply_mods e mods with
      | inl err => inl err
      | inr e' => inr (replace_at dn e' d)
      end
  end.

Definition delete (dn : string) (d : list entry) : string + list entry :=
  if existsb (at_dn dn) d
  then inr (List.filter (fun e => negb (at_dn dn e)) d)
  else inl "No such object".

End Directory.

(* ===================================================================== *)
(** * The client library (python-ldap's LDAPObject)                      *)
(* ===================================================================== *)

Record LDAPObject := { uri : string }.

(** One request on the wire: a transport fault raises, a refusal by the
    server raises, and otherwise the server's answer comes back. *)
Definition request {R A} (o : ldap_op)
    (serve : list entry -> nat -> string + (A * list entry * nat))
  : M R A :=
  fun w =>
    if next_fault w then
      (Raise (LDAPError "Can't contact LDAP server"),
       sent w (dir w) (open_conns w), [EvLdap o false])
    else
      match serve (dir w) (open_conns w) with
      | inl desc =>
          (Raise (LDAPError desc),
           sent w (dir w) (open_conns w), [EvLdap o false])
      | inr (a, d, n) => (Next a, sent w d n, [EvLdap o true])
      end.

(** A request that answers with the new directory only. *)
Definition update_request {R} (o : ldap_op)
    (f : list entry -> string + list entry) : M R unit :=
  request o (fun d n =>
               match f d with
               | inl err => inl err
               | inr d' => inr (tt, d', n)
               end).

(** [ldap.initialize(uri)] followed by [set_option]: no traffic yet. *)
Definition ldap_initialize (server : string) : LDAPObject :=
  {| uri := server |}.

Definition simple_bind_s {R} (l : LDAPObject) (who cred : string)
  : M R unit :=
  request (Bind (uri l) who) (fun d n => inr (tt, d, S n)).

Definition unbind_s {R} (l : LDAPObject) : M R unit :=
  request Unbind (fun d n => inr (tt, d, Nat.pred n)).

Definition search_s {R} (l : LDAPObject) (base filter : string)
  : M R (list entry) :=
  request (Search base filter)
          (fun d n =>
             match Directory.search filter d with
             | inl err => inl err
             | inr found => inr (found, d, n)
             end).

Definition add_s {R} (l : LDAPObject) (dn : string)
    (ldif : list (string * list string)) : M R unit :=
  update_request (AddEntry dn ldif) (Directory.add dn ldif).

Definition rename_s {R} (l : LDAPObject) (dn newrdn : string) : M R unit :=
  update_request (Rename dn newrdn) (Directory.rename dn newrdn).

Definition modify_s {R} (l : LDAPObject) (dn : string)
    (mods : list modification) : M R unit :=
  update_request (Modify dn mods) (Directory.modify dn mods).

Definition delete_s {R} (l : LDAPObject) (dn : string) : M R unit :=
  update_request (Delete dn) (Directory.delete dn).

(* ===================================================================== *)
(** * The script                                                         *)
(* ===================================================================== *)

(** One element of the input's ["useractions"] list, each value already
    passed through [str]. *)
Record Row := {
  r_action : string;
  r_username : string;
  r_newusername : string;
  r_loginDisabled : string;
  r_uidNumber : string;
  r_gidNumber : string;
  r_givenName : string;
  r_fullName : string;
  r_sn : string;
  r_employeeType : string;
  r_DNumber : string;
  r_primO : string;
  r_businessCategory : string;
  r_userPassword : string;
  r_description : string
}.

Section Script.

(** The globals set by [readConfig]. *)
Variable cfg : Settings.

(** [base64.b64encode(hashlib.sha1(p).digest())], a library function. *)
Variable sha1_b64 : string -> string.

(** The order in which [for _item in params] visits the items of the
    dictionary [params = locals()]: Python 2 fixes it by the keys'
    hashes, not by the order of the parameters. *)
Variable dict_iter : list (string * string) -> list (string * string).

(** [ldapConnect()]; [None] is the source's [False]. *)
Definition ldapConnect {R} : M R (option LDAPObject) :=
  def (
    let ldap_user := USER cfg in
    let ldap_secret := PASSWORD cfg in
    let ldap_server := LDAPSERVER cfg in
    l <- try_except
           (let l := ldap_initialize ldap_server in
            simple_bind_s l ldap_user ldap_secret ;;
            ret l)
           (fun e =>
              if is_LDAPError e then
                print ("ERROR: Could not establish LDAP connection: "
                       ++ exn_text e) ;;
                logging_error "problem binding to ldap LDAP server" ;;
                return_ None
              else raise e) ;;
    return_ (Some l)).

(** The body shared, word for word, by [findUser] and
    [containsPosixAccount]: the search is the only assignment to
    [ldap_result], and the handler of [ldap.LDAPError] assigns nothing,
    so after a failed search [len(ldap_result)] reads an unbound
    local. *)
Definition exactly_one {R} (l : LDAPObject) (searchFilter username : string)
  : M R bool :=
  def (
    ldap_result <-
      try_except
        (r <- search_s l (baseDN cfg) searchFilter ;; ret (Some r))
        (fun e =>
           if is_LDAPError e then
             print ("ERROR: problems with LDAP search: " ++ exn_text e) ;;
             logging_error ("problem with LDAP search for: " ++ username) ;;
             ret None
           else raise e) ;;
    ldap_result <- read_local "ldap_result" ldap_result ;;
    if Nat.eqb (List.length ldap_result) 0 then
      logging_info ("user " ++ username ++ " does not exist in ldap") ;;
      return_ false
    else if Nat.ltb 1 (List.length ldap_result) then
      logging_info ("user " ++ username
                    ++ " has multiple entries in ldap") ;;
      return_ false
    else return_ true).

(** [findUser(l, username)] *)
Definition findUser {R} (l : LDAPObject) (username : string) : M R bool :=
  exactly_one l ("uid=" ++ username) username.

(** [containsPosixAccount(l, username)] *)
Definition containsPosixAccount {R} (l : LDAPObject) (username : string)
  : M R bool :=
  exactly_one l ("(&(uid=" ++ username ++ ")(objectClass=posixAccount))")
              username.

(** [buildDN(username)] *)
Definition buildDN {R} (username : string) : M R string :=
  def (
    let userType := getUserType cfg username in
    dn <- (if String.eqb userType "STU" then
             logging_info ("looks like we have a student here: "
                           ++ username) ;;
             ret ("uid=" ++ username ++ STUDENTOU cfg)
           else if String.eqb userType "GST" then
             logging_info ("looks like we have a guest here: "
                           ++ username) ;;
             ret ("uid=" ++ username ++ GUESTOU cfg)
           else
             logging_info ("looks like we have an employee here: "
                           ++ username) ;;
             ret ("uid=" ++ username ++ EMPOU cfg)) ;;
    return_ dn).

(** The loop [for _item in params: if str(params[_item]) == "": ...] of
    [create] and [update], over the items in iteration order; [verb] is
    the word that differs between the two messages. *)
Fixpoint missing_value (verb username : string)
                       (items : list (string * string)) : M string unit :=
  match items with
  | [] => ret tt
  | (_item, value) :: rest =>
      if String.eqb value "" then
        print ("ERROR: unable to " ++ verb ++ " user " ++ username
               ++ " because " ++ _item ++ " is missing a value") ;;
        logging_error ("unable to " ++ verb ++ " user " ++ username
                       ++ " because " ++ _item ++ " is missing a value") ;;
        return_ ("ERROR: Missing an expected input value for " ++ _item
                 ++ " in input file")
      else missing_value verb username rest
  end.

(** [modlist.addModlist(attrs)]: the attributes that have a value; a
    string value is a list of one here, so an empty string is [[""]]. *)
Definition addModlist (attrs : list (string * list string))
  : list (string * list string) :=
  List.filter
    (fun kv =>
       match snd kv with
       | [] => false
       | [v] => negb (String.eqb v "")
       | _ => true
       end) attrs.

(** [create(...)] *)
Definition create {R}
    (username givenName fullName sn employeeType dNumber ou
     businessCategory userPassword : string) : M R string :=
  def (
    let params :=
      [("username", username); ("givenName", givenName);
       ("fullName", fullName); ("sn", sn);
       ("employeeType", employeeType); ("dNumber", dNumber); ("ou", ou);
       ("businessCategory", businessCategory);
       ("userPassword", userPassword)] in
    missing_value "create" username (dict_iter params) ;;
    l <- ldapConnect ;;
    match l with
    | None => return_ "ERROR: unable to connect to LDAP server"
    | Some l =>
        found <- findUser l username ;;
        if found then
          print ("ERROR: cannot create user - user already exists: "
                 ++ username) ;;
          logging_error ("cannot create user - user already exists: "
                         ++ username) ;;
          return_ "ERROR: username already taken!"
        else
          try_except
            (let attrs :=
               [("objectclass",
                 ["top"; "person"; "organizationalPerson";
                  "inetOrgPerson"; "duPerson"; "qmailUser"]);
                ("uid", [username]);
                ("userPassword", ["{SHA}" ++ sha1_b64 userPassword]);
                ("givenName", [givenName]);
                ("cn", [fullName]);
                ("sn", [sn]);
                ("mail", [username ++ MAILDOMAIN cfg]);
                ("employeeType", [employeeType]);
                ("employeeNumber", [dNumber]);
                ("o", [ou]);
                ("businessCategory", [businessCategory]);
                ("pwdReset", ["TRUE"])] in
             let ldif := addModlist attrs in
             dn <- buildDN username ;;
             add_s l dn ldif ;;
             logging_info ("user added to ldap: " ++ username) ;;
             print ("SUCCESS: User " ++ username ++ " added to ldap") ;;
             unbind_s l)
            (fun e =>
               if is_LDAPError e then
                 print ("ERROR: Could not add user to ldap: "
                        ++ exn_text e) ;;
                 logging_error ("ldap add failed for user: " ++ username) ;;
                 return_ "ERROR: Could not create ldap user"
               else raise e) ;;
          return_ "SUCCESS: User added to ldap"
    end).

(** The nine replacements [update] prepares first. *)
Definition standard_mods
    (newusername givenName fullName sn employeeType dNumber ou
     businessCategory : string) : list modification :=
  [(MOD_REPLACE, "givenName", givenName);
   (MOD_REPLACE, "cn", fullName);
   (MOD_REPLACE, "sn", sn);
   (MOD_REPLACE, "uid", newusername);
   (MOD_REPLACE, "mail", newusername ++ MAILDOMAIN cfg);
   (MOD_REPLACE, "employeeType", employeeType);
   (MOD_REPLACE, "employeeNumber", dNumber);
   (MOD_REPLACE, "o", ou);
   (MOD_REPLACE, "businessCategory", businessCategory)].

(** The three replacements it takes instead for a posixAccount. *)
Definition posix_mods (newusername uidNumber gidNumber : string)
  : list modification :=
  [(MOD_REPLACE, "uidNumber", uidNumber);
   (MOD_REPLACE, "gidNumber", gidNumber);
   (MOD_REPLACE, "homeDirectory", "/home/" ++ newusername)].

(** [except Exception] of the rename block of [update]: it prints, logs
    and assigns [result], and does not return. [dn] is the local [dn] as
    the block left it. *)
Definition rename_failed (dn : option string) (e : exn)
  : M string (option string) :=
  print ("ERROR: unknown error while renaming user: " ++ exn_text e) ;;
  logging_error "unknown error while attempting to rename user" ;;
  let result := "ERROR: Could not rename ldap user" in
  ret dn.

(** The two handlers of the modify block of [update]: the one for
    [ldap.LDAPError] returns, the one for [Exception] only assigns
    [result]. *)
Definition update_failed (username : string) (dn : option string) (e : exn)
  : M string (option string) :=
  if is_LDAPError e then
    print ("ERROR: Could not update user in ldap: " ++ exn_text e) ;;
    logging_error ("ldap update failed for: " ++ username) ;;
    return_ "ERROR: Could not update ldap user"
  else
    print ("ERROR: unknown error while updating user: " ++ exn_text e) ;;
    logging_error "unknown error while updating user" ;;
    let result := "ERROR: Could not update ldap user" in
    ret dn.

(** [update(...)]. Python keeps the assignments a [try] block made
    before it raised; the handlers above get the local [dn] of that
    moment, which is why each block is cut at its assignment to [dn]. *)
Definition update {R}
    (username newusername uidNumber gidNumber givenName fullName sn
     employeeType dNumber ou businessCategory : string) : M R string :=
  def (
    let params :=
      [("username", username); ("newusername", newusername);
       ("uidNumber", uidNumber); ("gidNumber", gidNumber);
       ("givenName", givenName); ("fullName", fullName); ("sn", sn);
       ("employeeType", employeeType); ("dNumber", dNumber); ("ou", ou);
       ("businessCategory", businessCategory)] in
    missing_value "update" username (dict_iter params) ;;
    l <- ldapConnect ;;
    match l with
    | None => return_ "ERROR: unable to connect to LDAP server"
    | Some l =>
        found <- findUser l username ;;
        if negb found then
          print ("ERROR: user does not exist: " ++ username) ;;
          logging_error ("user does not exist: " ++ username) ;;
          return_ "ERROR: user could not be found!"
        else
          (* rename if new username is different *)
          dn <-
            (if negb (String.eqb username newusername) then
               let userType := getUserType cfg username in
               if negb (String.eqb userType (getUserType cfg newusername))
               then
                 print ("ERROR: unable to rename user " ++ username
                        ++ " to " ++ newusername
                        ++ " because they are of different type") ;;
                 logging_error ("unable to rename user " ++ username
                                ++ " to " ++ newusername
                                ++ " because they are of different type") ;;
                 return_ "ERROR: won't rename users across different types"
               else
                 dn <-
                   try_except
                     (taken <- findUser l newusername ;;
                      if taken then
                        print ("ERROR: cannot rename user - "
                               ++ "user already exists: " ++ newusername) ;;
                        logging_error ("cannot rename user - "
                                       ++ "user already exists: "
                                       ++ newusername) ;;
                        return_ "ERROR: newusername already taken!"
                      else
                        dn <- buildDN username ;;
                        try_except
                          (rename_s l dn ("uid=" ++ newusername) ;;
                           logging_info ("user " ++ username
                                         ++ " renamed to " ++ newusername
                                         ++ " in ldap") ;;
                           ret (Some dn))
                          (rename_failed (Some dn)))
                     (rename_failed None) ;;
                 findUser l newusername ;;
                 print ("INFO: user " ++ username ++ " renamed to "
                        ++ newusername ++ " in ldap") ;;
                 logging_info ("user " ++ username ++ " fully renamed to "
                               ++ newusername ++ " in ldap") ;;
                 ret dn
             else ret None) ;;
          (* Rename or not, update attributes or disable *)
          dn <-
            try_except
              (let mod_attrs :=
                 standard_mods newusername givenName fullName sn
                               employeeType dNumber ou businessCategory in
               posix <- containsPosixAccount l username ;;
               let mod_attrs :=
                 if posix then posix_mods newusername uidNumber gidNumber
                 else mod_attrs in
               dn <- buildDN newusername ;;
               try_except
                 (modify_s l dn mod_attrs ;;
                  unbind_s l ;;
                  ret (Some dn))
                 (update_failed username (Some dn)))
              (update_failed username dn) ;;
          print ("SUCCESS: user " ++ newusername ++ " updated in ldap") ;;
          dn <- read_local "dn" dn ;;
          logging_info ("User " ++ dn ++ " updated ldap") ;;
          return_ "SUCCESS: User updated in ldap"
    end).

(** The two handlers of [delete]; the first reads [dn]. *)
Definition delete_failed (dn : option string) (e : exn)
  : M string (option string) :=
  if is_LDAPError e then
    print ("ERROR: Could not delete user in ldap: " ++ exn_text e) ;;
    dn <- read_local "dn" dn ;;
    logging_error ("ldap delete failed for " ++ dn) ;;
    return_ "ERROR: Could not delete ldap user"
  else
    print ("ERROR: unknown error while deleting user: " ++ exn_text e) ;;
    logging_error "unknown error while deleting user" ;;
    let result := "ERROR: Could not delete ldap user" in
    ret dn.

(** [delete(username)] *)
Definition delete {R} (username : string) : M R string :=
  def (
    if String.eqb username "" then
      print ("ERROR: unable to delete user because username argument "
             ++ "is missing a value") ;;
      logging_error ("unable to delete user because username argument "
                     ++ "is missing a value") ;;
      return_ ("ERROR: Missing an expected input value for username "
               ++ "in input file")
    else
      l <- ldapConnect ;;
      match l with
      | None => return_ "ERROR: unable to connect to LDAP server"
      | Some l =>
          found <- findUser l username ;;
          if negb found then
            print ("ERROR: user does not exist: " ++ username) ;;
            logging_error ("user does not exist: " ++ username) ;;
            return_ "ERROR: user could not be found!"
          else
            dn <-
              try_except
                (dn <- buildDN username ;;
                 try_except
                   (delete_s l dn ;;
                    logging_info ("user " ++ dn ++ " deleted from ldap") ;;
                    unbind_s l ;;
                    ret (Some dn))
                   (delete_failed (Some dn)))
                (delete_failed None) ;;
            print ("SUCCESS: user " ++ username ++ " deleted from ldap") ;;
            dn <- read_local "dn" dn ;;
            logging_info ("user " ++ dn ++ " fully deleted from ldap") ;;
            return_ "SUCCESS: User deleted from ldap"
      end).

Definition writer_writerow {R} (cols : list string) : M R unit :=
  emit (EvWriteRow cols).

(** The body of [for row in reader["useractions"]]. *)
Definition process_row (row : Row) : M unit unit :=
  let result := "" in
  result <-
    (if String.eqb (r_action row) "create" then
       create (r_username row) (r_givenName row) (r_fullName row)
              (r_sn row) (r_employeeType row) (r_DNumber row)
              (r_primO row) (r_businessCategory row) (r_userPassword row)
     else if String.eqb (r_action row) "update" then
       update (r_username row) (r_newusername row) (r_uidNumber row)
              (r_gidNumber row) (r_givenName row) (r_fullName row)
              (r_sn row) (r_employeeType row) (r_DNumber row)
              (r_primO row) (r_businessCategory row)
     else if String.eqb (r_action row) "delete" then
       delete (r_username row)
     else
       print "ERROR: unrecognized action" ;;
       logging_error "unrecognized action" ;;
       ret "ERROR: Unrecognized action") ;;
  writer_writerow [r_action row; r_username row; result].

Fixpoint for_rows (rows : list Row) : M unit unit :=
  match rows with
  | [] => ret tt
  | row :: rest => process_row row ;; for_rows rest
  end.

(** [main], from the point where the settings are read, the arguments
    parsed, both files open and the input decoded into its rows. None of
    the exceptions of this model is an [IOError], so the clause
    [except Exception] takes them all; [finally] follows. *)
Definition main (in_file out_file : string) (useractions : list Row)
  : M unit unit :=
  def (
    try_except
      (logging_info ("opened file: " ++ in_file) ;;
       logging_info ("opened file: " ++ out_file) ;;
       writer_writerow ["action"; "username"; "result"] ;;
       for_rows useractions)
      (fun e =>
         print ("ERROR: unknown error while attempting to read/write "
                ++ "to file: " ++ exn_text e) ;;
         logging_critical ("unknown error while attempting to "
                           ++ "read/write to file")) ;;
    logging_info ("closed file: " ++ in_file) ;;
    logging_info ("closed file: " ++ out_file) ;;
    return_ tt).

End Script.

(** The rows of the report, in the order they were written. *)
Fixpoint report (evs : list event) : list (list string) :=
  match evs with
  | [] => []
  | EvWriteRow cols :: evs' => cols :: report evs'
  | _ :: evs' => report evs'
  end.

(** The directory requests among the events. *)
Fixpoint requests (evs : list event) : list (ldap_op * bool) :=
  match evs with
  | [] => []
  | EvLdap o ok :: evs' => (o, ok) :: requests evs'
  | _ :: evs' => requests evs'
  end.

(* ===================================================================== *)
(** * Sample settings, directories and records                           *)
(* ===================================================================== *)

Module Sample.

Definition cfg : Settings :=
  {| LDAPSERVER := "ldaps://ldap.example.edu:636/";
     USER := "cn=admin,dc=example,dc=edu";
     PASSWORD := "secret";
     baseDN := "dc=example,dc=edu";
     MAILDOMAIN := "@example.edu";
     STUPATTERN := "_";
     GSTPATTERN := "gst";
     STUDENTOU := ",ou=students,dc=example,dc=edu";
     GUESTOU := ",ou=guests,dc=example,dc=edu";
     EMPOU := ",ou=staff,dc=example,dc=edu" |}.

(** A stand-in for the digest: the value for the password ["pw1"]. *)
Definition sha1_b64 (p : string) : string :=
  "AsWT/Zr4JUuFnUJqdrbNQoR/vsE=".

(** Two iteration orders for [locals()]: as declared, and reversed. *)
Definition in_order (d : list (string * string)) := d.

Definition reversed (d : list (string * string)) := rev d.

Definition staff (uid : string) (classes : list string) : entry :=
  {| e_uid := uid;
     e_parent := ",ou=staff,dc=example,dc=edu";
     e_classes := classes;
     e_attrs := [("cn", [uid])] |}.

Definition person := ["top"; "person"; "inetOrgPerson"].

Definition posix_person := ["top"; "person"; "inetOrgPerson"; "posixAccount"].

(** A world with the given entries and faults, no connection open. *)
Definition world (d : list entry) (fs : list bool) : World :=
  {| dir := d; faults := fs; open_conns := 0 |}.

Definition row (action username newusername : string) : Row :=
  {| r_action := action;
     r_username := username;
     r_newusername := newusername;
     r_loginDisabled := "False";
     r_uidNumber := "15549";
     r_gidNumber := "15549";
     r_givenName := "Jane";
     r_fullName := "Jane Doe";
     r_sn := "Doe";
     r_employeeType := "ADM";
     r_DNumber := "D0000001";
     r_primO := "Biology";
     r_businessCategory := "staff";
     r_userPassword := "pw1";
     r_description := "note" |}.

Definition create_row (r : Row) : M unit string :=
  create cfg sha1_b64 in_order
         (r_username r) (r_givenName r) (r_fullName r) (r_sn r)
         (r_employeeType r) (r_DNumber r) (r_primO r)
         (r_businessCategory r) (r_userPassword r).

Definition update_row (r : Row) : M unit string :=
  update cfg in_order
         (r_username r) (r_newusername r) (r_uidNumber r) (r_gidNumber r)
         (r_givenName r) (r_fullName r) (r_sn r) (r_employeeType r)
         (r_DNumber r) (r_primO r) (r_businessCategory r).

End Sample.

(* ===================================================================== *)
(** * Vocabulary of the statements                                       *)
(* ===================================================================== *)

(** Whether the [n]-th request from now on meets a transport fault. *)
Definition fault_at (n : nat) (w : World) : bool := nth n (faults w) false.

(** The entries whose uid is [u], and how many there are. *)
Definition with_uid_eq (u : string) (e : entry) : bool :=
  String.eqb (e_uid e) u.

Definition uid_count (u : string) (d : list entry) : nat :=
  List.length (List.filter (with_uid_eq u) d).

Definition posix_with_uid (u : string) (e : entry) : bool :=
  String.eqb (e_uid e) u && Directory.is_posix e.

(** No value is the empty string. *)
Definition filled (values : list string) : bool :=
  forallb (fun v => negb (String.eqb v "")) values.

Definition is_bind (o : ldap_op) : bool :=
  match o with Bind _ _ => true | _ => false end.

Definition is_unbind (o : ldap_op) : bool :=
  match o with Unbind => true | _ => false end.

Definition is_add (o : ldap_op) : bool :=
  match o with AddEntry _ _ => true | _ => false end.

Definition is_rename (o : ldap_op) : bool :=
  match o with Rename _ _ => true | _ => false end.

Definition is_modify (o : ldap_op) : bool :=
  match o with Modify _ _ => true | _ => false end.

Definition is_delete (o : ldap_op) : bool :=
  match o with Delete _ => true | _ => false end.

(** The requests that change the directory. *)
Definition is_write (o : ldap_op) : bool :=
  is_add o || is_rename o || is_modify o || is_delete o.

(** Some request of the kind [p] was sent. *)
Definition sends (p : ldap_op -> bool) (evs : list event) : bool :=
  existsb (fun r => p (fst r)) (requests evs).

(** Some request of the kind [p] was sent and succeeded. *)
Definition succeeds (p : ldap_op -> bool) (evs : list event) : bool :=
  existsb (fun r => p (fst r) && snd r) (requests evs).

(** The log lines of the existence check on [n] matches. *)
Definition matches_log (username : string) (n : nat) : list event :=
  if Nat.eqb n 0 then
    [EvLog INFO ("user " ++ username ++ " does not exist in ldap")]
  else if Nat.ltb 1 n then
    [EvLog INFO ("user " ++ username ++ " has multiple entries in ldap")]
  else [].

(** What the existence check says on [n] matches. *)
Definition one_match (n : nat) : bool :=
  if Nat.eqb n 0 then false else if Nat.ltb 1 n then false else true.

(** The events of a search that met a fault or a refusal. *)
Definition search_failed (base filter username desc : string) : list event :=
  [EvLdap (Search base filter) false;
   EvPrint ("ERROR: problems with LDAP search: " ++ desc);
   EvLog ERROR ("problem with LDAP search for: " ++ username)].

(** The container suffix [buildDN] picks for a username, and the words of
    its log line. *)
Definition ou_of (c : Settings) (username : string) : string :=
  if String.eqb (getUserType c username) "STU" then STUDENTOU c
  else if String.eqb (getUserType c username) "GST" then GUESTOU c
  else EMPOU c.

Definition kind_of (c : Settings) (username : string) : string :=
  if String.eqb (getUserType c username) "STU" then "a student"
  else if String.eqb (getUserType c username) "GST" then "a guest"
  else "an employee".

(** A bind went through; an unbind went through; the processor's own
    write (add, modify or delete) went through; a search met an error. *)
Definition opened (evs : list event) : bool := succeeds is_bind evs.

Definition closed (evs : list event) : bool := succeeds is_unbind evs.

Definition wrote (evs : list event) : bool :=
  succeeds (fun o => is_add o || is_modify o || is_delete o) evs.


(** The connection discipline the script has: it sends the unbind exactly
    when its own write went through. *)
Definition unbinds_after_write {R A}
    (run : outcome R A * World * list event) : Prop :=
  let '(_, _, evs) := run in
  sends is_unbind evs = wrote evs.

(** A processor call that returns, writes no row of the report and
    leaves no fault pending. *)
Definition returns_quietly (run : outcome unit string * World * list event)
  : Prop :=
  let '(o, w', evs) := run in
  (exists result, o = Next result) /\ faults w' = [] /\ report evs = [].

(** Directories in which a DN names its entry's uid without ambiguity: no
    comma in a uid, and a container suffix is empty or led by a comma. *)
Definition suffix_ok (p : string) : bool :=
  match p with
  | EmptyString => true
  | String c _ => Ascii.eqb c ","
  end.

Definition wf_entry (e : entry) : bool :=
  Text.comma_free (e_uid e) && suffix_ok (e_parent e).

Definition wf_dir (d : list entry) : bool := forallb wf_entry d.

Definition wf_cfg (c : Settings) : bool :=
  suffix_ok (STUDENTOU c) && suffix_ok (GUESTOU c) && suffix_ok (EMPOU c).

(** The result strings of the report begin with one of two tags. *)
Definition tagged (s : string) : bool :=
  Text.starts_with "ERROR: " s || Text.starts_with "SUCCESS: " s.

(** The order of the requests of one call. After the bind: no second
    bind, and nothing behind an unbind. *)
Fixpoint session (reqs : list (ldap_op * bool)) : bool :=
  match reqs with
  | [] => true
  | (o, _) :: rest =>
      negb (is_bind o) &&
      (if is_unbind o then match rest with [] => true | _ :: _ => false end
       else session rest)
  end.

(** The whole call: no request at all, or a bind first, and nothing more
    when that bind failed. *)
Definition in_protocol (reqs : list (ldap_op * bool)) : bool :=
  match reqs with
  | [] => true
  | (o, ok) :: rest =>
      is_bind o &&
      (if ok then session rest
       else match rest with [] => true | _ :: _ => false end)
  end.

(** What every run of a processor keeps to: it writes no row of the
    report; its requests keep the order above; a result it returns is
    tagged; an exception that leaves it is an [UnboundLocalError], never
    an [ldap.LDAPError]; the directory is as before unless one of its
    writes went through; and once its unbind went through it returns a
    success. *)
Definition well_behaved (w : World)
    (run : outcome unit string * World * list event) : Prop :=
  let '(o, w', evs) := run in
  report evs = [] /\
  in_protocol (requests evs) = true /\
  (forall s, o = Next s -> tagged s = true) /\
  (forall e, o = Raise e -> is_LDAPError e = false) /\
  (succeeds is_write evs = false -> dir w' = dir w) /\
  (closed evs = true ->
   exists s, o = Next s /\ Text.starts_with "SUCCESS: " s = true).

(** The three actions [main] knows. *)
Definition known_action (a : string) : bool :=
  String.eqb a "create" || String.eqb a "update" || String.eqb a "delete".

(** A call that found no server: it says so, has sent the one bind that
    failed, and leaves the directory and the connections as they were. *)
Definition connect_failed (c : Settings) (w : World)
    (run : outcome unit string * World * list event) : Prop :=
  let '(o, w', evs) := run in
  o = Next "ERROR: unable to connect to LDAP server" /\
  requests evs = [(Bind (LDAPSERVER c) (USER c), false)] /\
  dir w' = dir w /\
  open_conns w' = open_conns w.

(** The settings file as the script ships it: every constant is the
    empty string (and so is the decoded password). *)
Definition shipped_settings : Settings :=
  {| LDAPSERVER := ""; USER := ""; PASSWORD := ""; baseDN := "";
     MAILDOMAIN := ""; STUPATTERN := ""; GSTPATTERN := "";
     STUDENTOU := ""; GUESTOU := ""; EMPOU := "" |}.

(* ===================================================================== *)
(** * Facts about the text helpers                                       *)
(* ===================================================================== *)

Module TextFacts.
Import Text.

Lemma length_append (a b : string) :
  String.length (a ++ b) = String.length a + String.length b.
Proof. induction a; simpl; congruence. Qed.

Lemma starts_with_iff (p s : string) :
  starts_with p s = true <-> exists t, s = p ++ t.
Proof.
  revert s; induction p as [|a p IH]; intros s; simpl.
  - split; [intros _; now exists s | reflexivity].
  - destruct s as [|b s].
    + split; [discriminate | intros [t Ht]; discriminate].
    + rewrite andb_true_iff, Ascii.eqb_eq, IH. split.
      * intros [-> [t ->]]. now exists t.
      * intros [t Ht]. injection Ht as -> ->. split; [reflexivity|now exists t].
Qed.

Lemma contains_iff (p s : string) :
  contains p s = true <-> occurs_in p s.
Proof.
  unfold occurs_in. induction s as [|c s IH].
  - simpl. rewrite orb_false_r, starts_with_iff. split.
    + intros [t Ht]. exists "", t. exact Ht.
    + intros [pre [post H]]. destruct pre; [now exists post | discriminate].
  - cbn [contains]. rewrite orb_true_iff, starts_with_iff, IH. split.
    + intros [[t Ht] | [pre [post H]]].
      * exists "", t. exact Ht.
      * exists (String c pre), post. simpl. now rewrite H.
    + intros [pre [post H]]. destruct pre as [|c' pre].
      * left. now exists post.
      * right. simpl in H. injection H as _ H. now exists pre, post.
Qed.

Lemma substring_0_append (a t : string) :
  substring 0 (String.length a) (a ++ t) = a.
Proof.
  induction a as [|c a IH]; simpl.
  - now destruct t.
  - now rewrite IH.
Qed.

Lemma substring_0_split (n : nat) (s : string) :
  n <= String.length s ->
  exists t, s = substring 0 n s ++ t /\ String.length t = String.length s - n.
Proof.
  revert n; induction s as [|c s IH]; intros n Hn; simpl in *.
  - assert (n = 0) as -> by lia. now exists "".
  - destruct n as [|n].
    + exists (String c s). split; reflexivity.
    + destruct (IH n) as [t [Ht Hl]]; [lia|].
      exists t. simpl. split; [now rewrite <- Ht | exact Hl].
Qed.

(** The slice [s[0:-4]] is the one string the specification's words
    describe. *)
Lemma slice_0_m4_iff (s a : string) :
  without_last4 s a <-> a = slice_0_m4 s.
Proof.
  unfold without_last4, slice_0_m4. split.
  - intros [t [Hs Hl]].
    assert (String.length s - 4 = String.length a) as ->.
    { rewrite Hs, length_append in *. lia. }
    rewrite Hs. now rewrite substring_0_append.
  - intros ->.
    destruct (@substring_0_split (String.length s - 4) s) as [t [Ht Hl]];
      [lia|].
    exists t. split; [exact Ht | lia].
Qed.

Lemma substring_drop_append (a t : string) :
  substring (String.length a) (String.length t) (a ++ t) = t.
Proof.
  induction a as [|c a IH]; simpl; [|exact IH].
  induction t as [|c t IH]; simpl; congruence.
Qed.

Lemma strip_suffix_append (suf s : string) :
  strip_suffix suf (s ++ suf) = Some s.
Proof.
  unfold strip_suffix. rewrite length_append.
  replace (String.length s + String.length suf - String.length suf)
    with (String.length s) by lia.
  rewrite substring_drop_append, String.eqb_refl, substring_0_append.
  replace (Nat.leb _ _) with true; [reflexivity|].
  symmetry. apply Nat.leb_le. lia.
Qed.

Lemma split_comma_free (u p : string) :
  comma_free u = true ->
  (p = "" \/ exists p', p = String "," p') ->
  split_comma (u ++ p) = (u, p).
Proof.
  intros Hu Hp. induction u as [|c u IH]; simpl in *.
  - destruct Hp as [-> | [p' ->]]; reflexivity.
  - apply andb_true_iff in Hu as [Hc Hu].
    apply negb_true_iff in Hc. rewrite Hc, (IH Hu). reflexivity.
Qed.

Lemma split_comma_shape (s : string) :
  comma_free (fst (split_comma s)) = true /\
  (snd (split_comma s) = "" \/
   exists p', snd (split_comma s) = String "," p').
Proof.
  induction s as [|c s IH]; simpl.
  - split; [reflexivity | now left].
  - destruct (Ascii.eqb c ",") eqn:E.
    + apply Ascii.eqb_eq in E as ->. split; [reflexivity|right; now exists s].
    + destruct (split_comma s) as [a b]. simpl in *. now rewrite E.
Qed.

End TextFacts.

(* ===================================================================== *)
(** * The classifier                                                     *)
(* ===================================================================== *)

Section Classifier.

Variable cfg : Settings.

Lemma getUserType_cases (username : string) :
  getUserType cfg username = "STU" \/
  getUserType cfg username = "GST" \/
  getUserType cfg username = "EMP".
Proof.
  unfold getUserType.
  destruct (Text.contains _ _); [now left|].
  destruct (String.eqb _ _); [right; now left | right; now right].
Qed.

(** C6. [getUserType] answers "STU" exactly when the student pattern
    occurs somewhere in the username; otherwise "GST" exactly when the
    guest pattern equals the username without its last four characters;
    otherwise "EMP". The student test comes first, and every username
    gets one of the three answers. *)
Theorem getUserType_classifies (username : string) :
  (getUserType cfg username = "STU" <->
     Text.occurs_in (STUPATTERN cfg) username) /\
  (getUserType cfg username = "GST" <->
     ~ Text.occurs_in (STUPATTERN cfg) username /\
     Text.without_last4 username (GSTPATTERN cfg)) /\
  (getUserType cfg username = "EMP" <->
     ~ Text.occurs_in (STUPATTERN cfg) username /\
     ~ Text.without_last4 username (GSTPATTERN cfg)) /\
  (getUserType cfg username = "STU" \/
   getUserType cfg username = "GST" \/
   getUserType cfg username = "EMP").
Proof.
  assert (Ho : Text.contains (STUPATTERN cfg) username = true <->
               Text.occurs_in (STUPATTERN cfg) username)
    by apply TextFacts.contains_iff.
  assert (Hw : String.eqb (GSTPATTERN cfg) (Text.slice_0_m4 username) = true
               <-> Text.without_last4 username (GSTPATTERN cfg)).
  { rewrite String.eqb_eq. symmetry. apply TextFacts.slice_0_m4_iff. }
  unfold getUserType.
  destruct (Text.contains (STUPATTERN cfg) username);
    destruct (String.eqb (GSTPATTERN cfg) (Text.slice_0_m4 username));
    intuition (try discriminate; try reflexivity).
Qed.

End Classifier.

(** The specification's two examples, and one of the names on which the
    guest comparison degenerates. *)
Example classify_alice_stu : getUserType Sample.cfg "alice_stu" = "STU".
Proof. reflexivity. Qed.

Example classify_gst1234 : getUserType Sample.cfg "gst1234" = "GST".
Proof. reflexivity. Qed.

Example classify_short_name :
  getUserType Sample.cfg "bob" = "EMP" /\
  forall c, STUPATTERN c = "_" -> GSTPATTERN c = "" ->
            getUserType c "bob" = "GST".
Proof.
  split; [reflexivity|].
  intros c Hs Hg. unfold getUserType. now rewrite Hs, Hg.
Qed.

(* ===================================================================== *)
(** * How the building blocks run                                        *)
(* ===================================================================== *)

Section Runs.

Variable cfg : Settings.

Lemma fault_at_0 w : fault_at 0 w = next_fault w.
Proof.
  unfold fault_at, next_fault. destruct (faults w) as [|[] ?]; reflexivity.
Qed.

Lemma fault_at_S n w d k : fault_at (S n) w = fault_at n (sent w d k).
Proof.
  unfold fault_at, sent; simpl.
  destruct (faults w); simpl; [now destruct n|reflexivity].
Qed.

Lemma dir_sent w d k : dir (sent w d k) = d.
Proof. reflexivity. Qed.

Lemma open_conns_sent w d k : open_conns (sent w d k) = k.
Proof. reflexivity. Qed.

Lemma requests_app evs evs' :
  requests (evs ++ evs') = (requests evs ++ requests evs')%list.
Proof.
  induction evs as [|[] evs IH]; simpl; [reflexivity|now rewrite IH|auto..].
Qed.

Lemma requests_matches_log username n :
  requests (matches_log username n) = [].
Proof.
  unfold matches_log. destruct (Nat.eqb n 0); [reflexivity|].
  destruct (Nat.ltb 1 n); reflexivity.
Qed.

Lemma requests_search_failed base filter username desc :
  requests (search_failed base filter username desc)
  = [(Search base filter, false)].
Proof. reflexivity. Qed.

Lemma one_match_iff n : one_match n = true <-> n = 1.
Proof.
  unfold one_match. destruct n as [|[|n]]; simpl; split; intros H;
    try reflexivity; try discriminate; lia.
Qed.

Lemma search_uid u d :
  Directory.search ("uid=" ++ u) d = inr (List.filter (with_uid_eq u) d).
Proof. reflexivity. Qed.

Lemma search_uid_posix u d :
  Directory.search ("(&(uid=" ++ u ++ ")(objectClass=posixAccount))") d
  = inr (List.filter (posix_with_uid u) d).
Proof.
  unfold Directory.search, Directory.parse_filter.
  change (Text.strip_prefix "(&(uid="
            ("(&(uid=" ++ u ++ ")(objectClass=posixAccount))"))
    with (Some (u ++ ")(objectClass=posixAccount))")).
  cbv beta iota. now rewrite TextFacts.strip_suffix_append.
Qed.

Lemma ldapConnect_run R w :
  ldapConnect (R:=R) cfg w =
  if next_fault w then
    (Next None, sent w (dir w) (open_conns w),
     [EvLdap (Bind (LDAPSERVER cfg) (USER cfg)) false;
      EvPrint ("ERROR: Could not establish LDAP connection: "
               ++ "Can't contact LDAP server");
      EvLog ERROR "problem binding to ldap LDAP server"])
  else
    (Next (Some (ldap_initialize (LDAPSERVER cfg))),
     sent w (dir w) (S (open_conns w)),
     [EvLdap (Bind (LDAPSERVER cfg) (USER cfg)) true]).
Proof.
  unfold ldapConnect, def, bind, try_except, simple_bind_s, request.
  destruct (next_fault w); reflexivity.
Qed.

Lemma exactly_one_run R l filter username found w :
  Directory.search filter (dir w) = inr found ->
  exactly_one (R:=R) cfg l filter username w =
  if next_fault w then
    (Raise (UnboundLocalError "ldap_result"), sent w (dir w) (open_conns w),
     search_failed (baseDN cfg) filter username "Can't contact LDAP server")
  else
    (Next (one_match (List.length found)), sent w (dir w) (open_conns w),
     EvLdap (Search (baseDN cfg) filter) true
       :: matches_log username (List.length found)).
Proof.
  intros Hs.
  unfold exactly_one, def, bind, try_except, search_s, request.
  destruct (next_fault w); [reflexivity|].
  rewrite Hs. unfold one_match, matches_log. simpl.
  destruct (Nat.eqb (List.length found) 0); [reflexivity|].
  destruct (Nat.ltb 1 (List.length found)); reflexivity.
Qed.

Lemma findUser_run R l username w :
  findUser (R:=R) cfg l username w =
  if next_fault w then
    (Raise (UnboundLocalError "ldap_result"), sent w (dir w) (open_conns w),
     search_failed (baseDN cfg) ("uid=" ++ username) username
                   "Can't contact LDAP server")
  else
    (Next (one_match (uid_count username (dir w))),
     sent w (dir w) (open_conns w),
     EvLdap (Search (baseDN cfg) ("uid=" ++ username)) true
       :: matches_log username (uid_count username (dir w))).
Proof.
  unfold findUser. now erewrite exactly_one_run by apply search_uid.
Qed.

Lemma containsPosixAccount_run R l username w :
  containsPosixAccount (R:=R) cfg l username w =
  if next_fault w then
    (Raise (UnboundLocalError "ldap_result"), sent w (dir w) (open_conns w),
     search_failed (baseDN cfg)
       ("(&(uid=" ++ username ++ ")(objectClass=posixAccount))") username
       "Can't contact LDAP server")
  else
    (Next (one_match
             (List.length (List.filter (posix_with_uid username) (dir w)))),
     sent w (dir w) (open_conns w),
     EvLdap (Search (baseDN cfg)
               ("(&(uid=" ++ username ++ ")(objectClass=posixAccount))")) true
       :: matches_log username
            (List.length (List.filter (posix_with_uid username) (dir w)))).
Proof.
  unfold containsPosixAccount.
  now erewrite exactly_one_run by apply search_uid_posix.
Qed.

Lemma buildDN_run R username w :
  buildDN (R:=R) cfg username w =
  (Next ("uid=" ++ username ++ ou_of cfg username), w,
   [EvLog INFO ("looks like we have " ++ kind_of cfg username
                ++ " here: " ++ username)]).
Proof.
  unfold buildDN, def, bind, ou_of, kind_of.
  destruct (String.eqb (getUserType cfg username) "STU"); [reflexivity|].
  destruct (String.eqb (getUserType cfg username) "GST"); reflexivity.
Qed.

Lemma missing_value_filled verb username items w :
  filled (map snd items) = true ->
  missing_value verb username items w = (Next tt, w, []).
Proof.
  induction items as [|[k v] items IH]; simpl; [reflexivity|].
  intros H. apply andb_true_iff in H as [Hv H].
  apply negb_true_iff in Hv. rewrite Hv. now apply IH.
Qed.

Lemma missing_value_inv verb username items w o w' evs :
  missing_value verb username items w = (o, w', evs) ->
  w' = w /\ requests evs = [] /\
  (o = Next tt \/
   exists item, o = Return ("ERROR: Missing an expected input value for "
                            ++ item ++ " in input file")).
Proof.
  revert o w' evs.
  induction items as [|[k v] items IH]; simpl; intros o w' evs.
  - intros [= <- <- <-]. repeat split. now left.
  - destruct (String.eqb v ""); [|apply IH].
    unfold bind, print, logging_error, emit, return_.
    intros [= <- <- <-]. repeat split. right. eauto.
Qed.

(** The loop stops at the first item without a value. *)
Lemma missing_value_first verb username before item after w :
  filled (map snd before) = true ->
  missing_value verb username (before ++ (item, "") :: after) w =
  (Return ("ERROR: Missing an expected input value for " ++ item
           ++ " in input file"), w,
   [EvPrint ("ERROR: unable to " ++ verb ++ " user " ++ username
             ++ " because " ++ item ++ " is missing a value");
    EvLog ERROR ("unable to " ++ verb ++ " user " ++ username
                 ++ " because " ++ item ++ " is missing a value")]).
Proof.
  induction before as [|[k v] before IH]; simpl; [reflexivity|].
  intros H. apply andb_true_iff in H as [Hv H].
  apply negb_true_iff in Hv. rewrite Hv. now apply IH.
Qed.

Lemma unfilled_split (items : list (string * string)) :
  filled (map snd items) = false ->
  exists before item after,
    items = (before ++ (item, "") :: after)%list /\
    filled (map snd before) = true.
Proof.
  induction items as [|[k v] items IH]; simpl; [discriminate|].
  destruct (String.eqb v "") eqn:Hv; simpl.
  - intros _. apply String.eqb_eq in Hv as ->.
    now exists [], k, items.
  - intros H. destruct (IH H) as (before & item & after & -> & Hb).
    exists ((k, v) :: before), item, after. simpl.
    now rewrite Hv.
Qed.

Lemma filled_perm (l l' : list (string * string)) :
  Permutation l' l ->
  filled (map snd l') = filled (map snd l).
Proof.
  intros HP. unfold filled.
  destruct (forallb _ (map snd l)) eqn:E.
  - rewrite forallb_forall in *. intros v Hv.
    apply E. apply in_map_iff in Hv as [kv [<- Hin]].
    apply in_map. eapply Permutation_in; eassumption.
  - destruct (forallb _ (map snd l')) eqn:E'; [|reflexivity].
    rewrite <- E. symmetry. rewrite forallb_forall in *. intros v Hv.
    apply E'. apply in_map_iff in Hv as [kv [<- Hin]].
    apply in_map. eapply Permutation_in; [symmetry|]; eassumption.
Qed.

End Runs.

(* ===================================================================== *)
(** * Renaming in a well-formed directory                                *)
(* ===================================================================== *)

Section Renaming.

Variable cfg : Settings.

Lemma suffix_ok_cases (p : string) :
  suffix_ok p = true -> p = "" \/ exists p', p = String "," p'.
Proof.
  destruct p as [|c p]; simpl; [now left|].
  intros H. apply Ascii.eqb_eq in H as ->. right. now exists p.
Qed.

Lemma ou_of_ok (username : string) :
  wf_cfg cfg = true -> suffix_ok (ou_of cfg username) = true.
Proof.
  unfold wf_cfg, ou_of. rewrite !andb_true_iff. intros [[H1 H2] H3].
  destruct (String.eqb _ "STU"); [exact H1|].
  destruct (String.eqb _ "GST"); assumption.
Qed.

(** In a well-formed directory a DN tells the uid and the container. *)
Lemma dn_of_inj (e : entry) (u p : string) :
  wf_entry e = true ->
  Text.comma_free u = true ->
  suffix_ok p = true ->
  dn_of e = "uid=" ++ u ++ p ->
  e_uid e = u /\ e_parent e = p.
Proof.
  unfold wf_entry, dn_of. rewrite andb_true_iff. intros [Hu Hp] Hu' Hp' H.
  injection H as H.
  change (e_uid e ++ e_parent e = u ++ p) in H.
  pose proof (TextFacts.split_comma_free _ Hu (suffix_ok_cases _ Hp)) as H1.
  pose proof (TextFacts.split_comma_free _ Hu' (suffix_ok_cases _ Hp')) as H2.
  rewrite H in H1. rewrite H1 in H2. now injection H2.
Qed.




(** ** The server keeps the directory well formed *)

Lemma apply_mod_keeps_name (e e' : entry) (m : modification) :
  Directory.apply_mod e m = inr e' ->
  e_uid e' = e_uid e /\ e_parent e' = e_parent e.
Proof.
  destruct m as [[op attr] value]. unfold Directory.apply_mod.
  destruct (String.eqb attr "uid").
  - destruct op; try discriminate.
    destruct (String.eqb value (e_uid e)); [|discriminate].
    intros [= <-]. now split.
  - destruct (Directory.is_objectclass attr); intros [= <-]; now split.
Qed.

Lemma apply_mods_keep_name (ms : list modification) (e e' : entry) :
  Directory.apply_mods e ms = inr e' ->
  e_uid e' = e_uid e /\ e_parent e' = e_parent e.
Proof.
  revert e. induction ms as [|m ms IH]; simpl; intros e.
  - intros [= <-]. now split.
  - destruct (Directory.apply_mod e m) as [err|e1] eqn:E; [discriminate|].
    intros H. apply IH in H as [H1 H2].
    apply apply_mod_keeps_name in E as [E1 E2]. split; congruence.
Qed.

Lemma replace_at_wf (dn : string) (e1 : entry) (d : list entry) :
  wf_entry e1 = true -> wf_dir d = true ->
  wf_dir (Directory.replace_at dn e1 d) = true.
Proof.
  intros H1. induction d as [|e d IH]; simpl; [reflexivity|].
  rewrite andb_true_iff. intros [He Hd].
  destruct (Directory.at_dn dn e); simpl; rewrite andb_true_iff; auto.
Qed.

(** Every request the server accepts leaves a well-formed directory well
    formed: the hypothesis of the statement on renaming is an invariant of
    the directory, whatever the script sends. *)
Lemma server_keeps_wf (d d' : list entry) :
  wf_dir d = true ->
  (forall dn ldif, Directory.add dn ldif d = inr d' -> wf_dir d' = true) /\
  (forall dn newrdn,
      Directory.rename dn newrdn d = inr d' -> wf_dir d' = true) /\
  (forall dn mods, Directory.modify dn mods d = inr d' -> wf_dir d' = true) /\
  (forall dn, Directory.delete dn d = inr d' -> wf_dir d' = true).
Proof.
  intros Hd. repeat split.
  - intros dn ldif. unfold Directory.add, Directory.parse_dn.
    destruct (Text.strip_prefix "uid=" dn) as [r|]; [|discriminate].
    pose proof (TextFacts.split_comma_shape r) as [Hu Hp].
    destruct (Text.split_comma r) as [u p]. simpl in Hu, Hp.
    destruct (String.eqb u ""); [discriminate|].
    destruct (existsb _ d); [discriminate|].
    destruct (negb _); [discriminate|].
    intros [= <-]. unfold wf_dir. rewrite forallb_app. fold (wf_dir d).
    rewrite Hd. simpl. unfold wf_entry. simpl. rewrite Hu. simpl.
    destruct Hp as [-> | [p' ->]]; reflexivity.
  - intros dn newrdn. unfold Directory.rename.
    destruct (find _ d) as [e|]; [|discriminate].
    destruct (Text.strip_prefix "uid=" newrdn) as [v|]; [|discriminate].
    destruct (String.eqb v "" || negb (Text.comma_free v)) eqn:Hv;
      [discriminate|].
    destruct (existsb _ d); [discriminate|].
    intros [= <-]. apply orb_false_iff in Hv as [_ Hv].
    apply negb_false_iff in Hv.
    unfold wf_dir in *. rewrite forallb_forall in *.
    intros x Hx. apply in_map_iff in Hx as [y [<- Hy]].
    specialize (Hd y Hy). destruct (Directory.at_dn dn y); [|exact Hd].
    unfold wf_entry in *. simpl. rewrite Hv.
    apply andb_true_iff in Hd as [_ Hd]. exact Hd.
  - intros dn mods. unfold Directory.modify.
    destruct (find _ d) as [e|] eqn:Hfind; [|discriminate].
    destruct (Directory.apply_mods e mods) as [err|e'] eqn:E; [discriminate|].
    intros [= <-]. apply replace_at_wf; [|exact Hd].
    apply find_some in Hfind as [Hin _].
    apply apply_mods_keep_name in E as [E1 E2].
    unfold wf_dir in Hd. rewrite forallb_forall in Hd.
    specialize (Hd e Hin). unfold wf_entry in *. now rewrite E1, E2.
  - intros dn. unfold Directory.delete.
    destruct (existsb _ d); [|discriminate].
    intros [= <-]. unfold wf_dir in *. rewrite forallb_forall in *.
    intros x Hx. apply filter_In in Hx as [Hx _]. auto.
Qed.

End Renaming.

(* ===================================================================== *)
(** * Running a processor path by path                                   *)
(* ===================================================================== *)

#[local] Arguments String.append : simpl never.
#[local] Arguments next_fault : simpl never.
#[local] Arguments one_match : simpl never.
#[local] Arguments uid_count : simpl never.
#[local] Arguments matches_log : simpl never.
#[local] Arguments search_failed : simpl never.
#[local] Arguments getUserType : simpl never.
#[local] Arguments Directory.add : simpl never.
#[local] Arguments Directory.rename : simpl never.
#[local] Arguments Directory.modify : simpl never.
#[local] Arguments Directory.delete : simpl never.
#[local] Arguments Directory.search : simpl never.
#[local] Arguments posix_with_uid : simpl never.
#[local] Arguments sent : simpl never.
#[local] Arguments addModlist : simpl never.
#[local] Arguments standard_mods : simpl never.
#[local] Arguments posix_mods : simpl never.

Ltac unfold_stmts :=
  unfold def, bind, try_except, rename_failed, update_failed, delete_failed,
    read_local, print, logging_info, logging_error, logging_critical, emit,
    ret, return_, raise, add_s, rename_s, modify_s, delete_s, unbind_s,
    update_request, request.

(** The validation loop either lets the call go on or returns; it sends
    nothing and leaves the world as it is. *)
Ltac split_missing :=
  match goal with
  | |- context [missing_value ?v ?u ?items ?w] =>
      let H := fresh "Hmiss" in
      let Hreq := fresh "Hreq" in
      let o := fresh "o" in
      let w1 := fresh "w1" in
      let ev := fresh "ev" in
      destruct (missing_value v u items w) as [[o w1] ev] eqn:H;
      apply missing_value_inv in H as (-> & Hreq & [-> | [? ->]])
  end.

(** One step: run a building block, or split on what the world decides. *)
Ltac exec_step :=
  first
    [ rewrite ldapConnect_run
    | rewrite findUser_run
    | rewrite containsPosixAccount_run
    | rewrite buildDN_run
    | rewrite dir_sent
    | rewrite open_conns_sent
    | match goal with
      | |- context [if next_fault ?w then _ else _] =>
          let E := fresh "Hfault" in destruct (next_fault w) eqn:E
      | |- context [match Directory.add ?a ?l ?d with _ => _ end] =>
          let E := fresh "Hadd" in destruct (Directory.add a l d) eqn:E
      | |- context [match Directory.rename ?a ?r ?d with _ => _ end] =>
          let E := fresh "Hren" in destruct (Directory.rename a r d) eqn:E
      | |- context [match Directory.modify ?a ?m ?d with _ => _ end] =>
          let E := fresh "Hmod" in destruct (Directory.modify a m d) eqn:E
      | |- context [match Directory.delete ?a ?d with _ => _ end] =>
          let E := fresh "Hdel" in destruct (Directory.delete a d) eqn:E
      | |- context [if is_LDAPError ?e then _ else _] =>
          progress cbn [is_LDAPError]
      | |- context [if ?b then _ else _] =>
          let E := fresh "Hif" in destruct b eqn:E
      end
    | progress cbn ].

Ltac exec := unfold_stmts; repeat exec_step.

Ltac norm_requests :=
  repeat first
    [ rewrite requests_app
    | rewrite requests_matches_log
    | rewrite requests_search_failed
    | match goal with H : requests _ = [] |- _ => rewrite H end
    | progress cbn ].

Ltac finish_release :=
  unfold unbinds_after_write, wrote, sends, succeeds;
  norm_requests; reflexivity.

(* ===================================================================== *)
(** * The processors                                                     *)
(* ===================================================================== *)

Section Processors.

Variable cfg : Settings.
Variable sha1_b64 : string -> string.
Variable dict_iter : list (string * string) -> list (string * string).

(** Whatever the order of iteration, [locals()] holds the parameters. *)
Hypothesis dict_iter_perm : forall d, Permutation (dict_iter d) d.

(** C7. A create whose fields all have a value, whose connection and
    search go through, and whose username has exactly one entry (so the
    existence check answers true) returns "ERROR: username already
    taken!"; it has sent the bind and the search and nothing else, so no
    add, and the directory is as before. *)
Theorem create_existing_user
    (username givenName fullName sn employeeType dNumber ou businessCategory
     userPassword : string) (w : World) :
  filled [username; givenName; fullName; sn; employeeType; dNumber; ou;
          businessCategory; userPassword] = true ->
  fault_at 0 w = false ->
  fault_at 1 w = false ->
  uid_count username (dir w) = 1 ->
  let '(o, w', evs) :=
    create (R:=unit) cfg sha1_b64 dict_iter username givenName fullName sn
           employeeType dNumber ou businessCategory userPassword w in
  o = Next "ERROR: username already taken!" /\
  requests evs = [(Bind (LDAPSERVER cfg) (USER cfg), true);
                  (Search (baseDN cfg) ("uid=" ++ username), true)] /\
  sends is_add evs = false /\
  dir w' = dir w.
Proof.
  intros Hfilled Hb Hs Hcount.
  unfold create, def, bind.
  rewrite missing_value_filled
    by (rewrite (filled_perm (dict_iter_perm _)); exact Hfilled).
  rewrite ldapConnect_run, <- fault_at_0, Hb.
  rewrite findUser_run.
  rewrite <- fault_at_0, <- fault_at_S, Hs, !dir_sent, Hcount.
  simpl. repeat split.
Qed.

(** C8. An update or a delete whose fields all have a value, whose
    connection and search go through, and whose username has no entry, or
    several (so the existence check answers false), returns "ERROR: user
    could not be found!"; it has sent the bind and the search and nothing
    else, so no rename, modify or delete. *)
Theorem missing_user_not_found
    (username newusername uidNumber gidNumber givenName fullName sn
     employeeType dNumber ou businessCategory : string) (w : World) :
  fault_at 0 w = false ->
  fault_at 1 w = false ->
  uid_count username (dir w) <> 1 ->
  (filled [username; newusername; uidNumber; gidNumber; givenName; fullName;
           sn; employeeType; dNumber; ou; businessCategory] = true ->
   let '(o, w', evs) :=
     update (R:=unit) cfg dict_iter username newusername uidNumber gidNumber
            givenName fullName sn employeeType dNumber ou businessCategory w in
   o = Next "ERROR: user could not be found!" /\
   requests evs = [(Bind (LDAPSERVER cfg) (USER cfg), true);
                   (Search (baseDN cfg) ("uid=" ++ username), true)] /\
   sends is_write evs = false /\
   dir w' = dir w) /\
  (filled [username] = true ->
   let '(o, w', evs) := delete (R:=unit) cfg username w in
   o = Next "ERROR: user could not be found!" /\
   requests evs = [(Bind (LDAPSERVER cfg) (USER cfg), true);
                   (Search (baseDN cfg) ("uid=" ++ username), true)] /\
   sends is_write evs = false /\
   dir w' = dir w).
Proof.
  intros Hb Hs Hcount.
  assert (Hone : one_match (uid_count username (dir w)) = false).
  { destruct (one_match _) eqn:E; [|reflexivity].
    apply one_match_iff in E. contradiction. }
  split; intros Hfilled.
  - unfold update, def, bind.
    rewrite missing_value_filled
      by (rewrite (filled_perm (dict_iter_perm _)); exact Hfilled).
    rewrite ldapConnect_run, <- fault_at_0, Hb.
    rewrite findUser_run.
    rewrite <- fault_at_0, <- fault_at_S, Hs, !dir_sent, Hone.
    unfold sends. cbn. rewrite !requests_app, requests_matches_log.
    repeat split.
  - unfold delete, def, bind.
    cbn in Hfilled. rewrite andb_true_r in Hfilled.
    apply negb_true_iff in Hfilled. rewrite Hfilled.
    rewrite ldapConnect_run, <- fault_at_0, Hb.
    rewrite findUser_run.
    rewrite <- fault_at_0, <- fault_at_S, Hs, !dir_sent, Hone.
    unfold sends. cbn. rewrite !requests_app, requests_matches_log.
    repeat split.
Qed.

Lemma cross_type_sends_nothing
    (username newusername uidNumber gidNumber givenName fullName sn
     employeeType dNumber ou businessCategory : string) (w : World) :
  newusername <> username ->
  getUserType cfg username <> getUserType cfg newusername ->
  let '(o, w', evs) :=
    update (R:=unit) cfg dict_iter username newusername uidNumber gidNumber
           givenName fullName sn employeeType dNumber ou businessCategory w in
  sends is_rename evs = false /\
  sends is_modify evs = false /\
  dir w' = dir w /\
  o <> Next "SUCCESS: User updated in ldap".
Proof.
  intros Hname Htype.
  assert (Hn : String.eqb username newusername = false).
  { apply String.eqb_neq. congruence. }
  assert (Ht : String.eqb (getUserType cfg username)
                          (getUserType cfg newusername) = false).
  { now apply String.eqb_neq. }
  unfold update. unfold_stmts. rewrite Hn, Ht.
  split_missing; repeat exec_step;
    unfold sends; norm_requests;
    repeat split; try discriminate; try reflexivity;
    intros [= Habs]; cbv in Habs; discriminate Habs.
Qed.

Lemma cross_type_outcome
    (username newusername uidNumber gidNumber givenName fullName sn
     employeeType dNumber ou businessCategory : string) (w : World) :
  newusername <> username ->
  getUserType cfg username <> getUserType cfg newusername ->
  filled [username; newusername; uidNumber; gidNumber; givenName; fullName;
          sn; employeeType; dNumber; ou; businessCategory] = true ->
  fault_at 0 w = false ->
  fault_at 1 w = false ->
  uid_count username (dir w) = 1 ->
  fst (fst (update (R:=unit) cfg dict_iter username newusername uidNumber
                   gidNumber givenName fullName sn employeeType dNumber ou
                   businessCategory w))
  = Next "ERROR: won't rename users across different types".
Proof.
  intros Hname Htype Hfilled Hb Hs Hcount.
  assert (Hn : String.eqb username newusername = false).
  { apply String.eqb_neq. congruence. }
  assert (Ht : String.eqb (getUserType cfg username)
                          (getUserType cfg newusername) = false).
  { now apply String.eqb_neq. }
  unfold update, def, bind.
  rewrite missing_value_filled
    by (rewrite (filled_perm (dict_iter_perm _)); exact Hfilled).
  rewrite ldapConnect_run, <- fault_at_0, Hb.
  rewrite findUser_run.
  rewrite <- fault_at_0, <- fault_at_S, Hs, !dir_sent, Hcount, Hn, Ht.
  reflexivity.
Qed.

(** C9. An update to a different username of another user type sends no
    rename and no modify and does not succeed, whatever the world; when
    its fields all have a value, its connection and search go through and
    the user exists, it returns "ERROR: won't rename users across
    different types". *)
Theorem cross_type_rename_refused
    (username newusername uidNumber gidNumber givenName fullName sn
     employeeType dNumber ou businessCategory : string) (w : World) :
  newusername <> username ->
  getUserType cfg username <> getUserType cfg newusername ->
  let '(o, w', evs) :=
    update (R:=unit) cfg dict_iter username newusername uidNumber gidNumber
           givenName fullName sn employeeType dNumber ou businessCategory w in
  sends is_rename evs = false /\
  sends is_modify evs = false /\
  dir w' = dir w /\
  o <> Next "SUCCESS: User updated in ldap" /\
  (filled [username; newusername; uidNumber; gidNumber; givenName; fullName;
           sn; employeeType; dNumber; ou; businessCategory] = true ->
   fault_at 0 w = false ->
   fault_at 1 w = false ->
   uid_count username (dir w) = 1 ->
   o = Next "ERROR: won't rename users across different types").
Proof.
  intros Hname Htype.
  pose proof (cross_type_sends_nothing uidNumber gidNumber givenName fullName
                sn employeeType dNumber ou businessCategory w Hname Htype)
    as Hno.
  pose proof (cross_type_outcome uidNumber gidNumber givenName fullName sn
                employeeType dNumber ou businessCategory w Hname Htype)
    as Hout.
  destruct (update _ _ _ _ _ _ _ _ _ _ _ _ _ w) as [[o w'] evs].
  destruct Hno as (H1 & H2 & H3 & H4).
  repeat split; assumption.
Qed.

Lemma create_releases
    (username givenName fullName sn employeeType dNumber ou businessCategory
     userPassword : string) (w : World) :
  unbinds_after_write
    (create (R:=unit) cfg sha1_b64 dict_iter username givenName fullName sn
            employeeType dNumber ou businessCategory userPassword w).
Proof.
  unfold create. unfold_stmts. split_missing; repeat exec_step; finish_release.
Qed.

Lemma update_releases
    (username newusername uidNumber gidNumber givenName fullName sn
     employeeType dNumber ou businessCategory : string) (w : World) :
  unbinds_after_write
    (update (R:=unit) cfg dict_iter username newusername uidNumber gidNumber
            givenName fullName sn employeeType dNumber ou businessCategory w).
Proof.
  unfold update. unfold_stmts. split_missing; repeat exec_step; finish_release.
Qed.

Lemma delete_releases (username : string) (w : World) :
  unbinds_after_write (delete (R:=unit) cfg username w).
Proof.
  unfold delete. exec; finish_release.
Qed.

(** X18. Whatever the record and the world, a processor sends the unbind
    request exactly when its own write (add, modify or delete) went
    through: after a refusal of the existence check, a cross-type rename,
    a taken new name or a failed write it has sent none. *)
Theorem unbind_follows_own_write :
  (forall username givenName fullName sn employeeType dNumber ou
          businessCategory userPassword w,
      unbinds_after_write
        (create (R:=unit) cfg sha1_b64 dict_iter username givenName fullName
                sn employeeType dNumber ou businessCategory userPassword w)) /\
  (forall username newusername uidNumber gidNumber givenName fullName sn
          employeeType dNumber ou businessCategory w,
      unbinds_after_write
        (update (R:=unit) cfg dict_iter username newusername uidNumber
                gidNumber givenName fullName sn employeeType dNumber ou
                businessCategory w)) /\
  (forall username w,
      unbinds_after_write (delete (R:=unit) cfg username w)).
Proof.
  split; [|split]; intros.
  - apply create_releases.
  - apply update_releases.
  - apply delete_releases.
Qed.

(** C5, as the script has it. A create or an update with a field without
    a value returns "ERROR: Missing an expected input value for <item> in
    input file", where <item> is the parameter's name and the first
    parameter without a value in the order in which the dictionary of
    parameters is iterated; a delete without a username returns that
    message for "username". Nothing is sent to the directory and the world
    is as before: the call printed one line and logged one. *)
Theorem missing_field_outcome :
  (forall username givenName fullName sn employeeType dNumber ou
          businessCategory userPassword w,
      filled [username; givenName; fullName; sn; employeeType; dNumber; ou;
              businessCategory; userPassword] = false ->
      exists before item after,
        dict_iter
          [("username", username); ("givenName", givenName);
           ("fullName", fullName); ("sn", sn);
           ("employeeType", employeeType); ("dNumber", dNumber); ("ou", ou);
           ("businessCategory", businessCategory);
           ("userPassword", userPassword)]
        = (before ++ (item, "") :: after)%list /\
        filled (map snd before) = true /\
        create (R:=unit) cfg sha1_b64 dict_iter username givenName fullName
               sn employeeType dNumber ou businessCategory userPassword w
        = (Next ("ERROR: Missing an expected input value for " ++ item
                 ++ " in input file"), w,
           [EvPrint ("ERROR: unable to create user " ++ username
                     ++ " because " ++ item ++ " is missing a value");
            EvLog ERROR ("unable to create user " ++ username
                         ++ " because " ++ item ++ " is missing a value")])) /\
  (forall username newusername uidNumber gidNumber givenName fullName sn
          employeeType dNumber ou businessCategory w,
      filled [username; newusername; uidNumber; gidNumber; givenName;
              fullName; sn; employeeType; dNumber; ou; businessCategory]
      = false ->
      exists before item after,
        dict_iter
          [("username", username); ("newusername", newusername);
           ("uidNumber", uidNumber); ("gidNumber", gidNumber);
           ("givenName", givenName); ("fullName", fullName); ("sn", sn);
           ("employeeType", employeeType); ("dNumber", dNumber); ("ou", ou);
           ("businessCategory", businessCategory)]
        = (before ++ (item, "") :: after)%list /\
        filled (map snd before) = true /\
        update (R:=unit) cfg dict_iter username newusername uidNumber
               gidNumber givenName fullName sn employeeType dNumber ou
               businessCategory w
        = (Next ("ERROR: Missing an expected input value for " ++ item
                 ++ " in input file"), w,
           [EvPrint ("ERROR: unable to update user " ++ username
                     ++ " because " ++ item ++ " is missing a value");
            EvLog ERROR ("unable to update user " ++ username
                         ++ " because " ++ item ++ " is missing a value")])) /\
  (forall w,
      delete (R:=unit) cfg "" w
      = (Next ("ERROR: Missing an expected input value for " ++ "username"
               ++ " in input file"), w,
         [EvPrint ("ERROR: unable to delete user because username argument "
                   ++ "is missing a value");
          EvLog ERROR ("unable to delete user because username argument "
                       ++ "is missing a value")])).
Proof.
  split; [|split].
  - intros username givenName fullName sn employeeType dNumber ou
           businessCategory userPassword w Hunfilled.
    change [username; givenName; fullName; sn; employeeType; dNumber; ou;
            businessCategory; userPassword]
      with (map snd [("username", username); ("givenName", givenName);
                     ("fullName", fullName); ("sn", sn);
                     ("employeeType", employeeType); ("dNumber", dNumber);
                     ("ou", ou); ("businessCategory", businessCategory);
                     ("userPassword", userPassword)]) in Hunfilled.
    rewrite <- (filled_perm (dict_iter_perm _)) in Hunfilled.
    destruct (unfilled_split _ Hunfilled) as (before & item & after & E & Hb).
    exists before, item, after. repeat split; [exact E | exact Hb |].
    unfold create, def, bind. rewrite E.
    now rewrite missing_value_first.
  - intros username newusername uidNumber gidNumber givenName fullName sn
           employeeType dNumber ou businessCategory w Hunfilled.
    change [username; newusername; uidNumber; gidNumber; givenName; fullName;
            sn; employeeType; dNumber; ou; businessCategory]
      with (map snd [("username", username); ("newusername", newusername);
                     ("uidNumber", uidNumber); ("gidNumber", gidNumber);
                     ("givenName", givenName); ("fullName", fullName);
                     ("sn", sn); ("employeeType", employeeType);
                     ("dNumber", dNumber); ("ou", ou);
                     ("businessCategory", businessCategory)]) in Hunfilled.
    rewrite <- (filled_perm (dict_iter_perm _)) in Hunfilled.
    destruct (unfilled_split _ Hunfilled) as (before & item & after & E & Hb).
    exists before, item, after. repeat split; [exact E | exact Hb |].
    unfold update, def, bind. rewrite E.
    now rewrite missing_value_first.
  - intros w. reflexivity.
Qed.

(** ** Renaming and the posixAccount check *)




End Processors.

(* ===================================================================== *)
(** * The batch when no request meets a fault                            *)
(* ===================================================================== *)

Section Batch.

Variable cfg : Settings.
Variable sha1_b64 : string -> string.
Variable dict_iter : list (string * string) -> list (string * string).

Lemma next_fault_quiet (w : World) : faults w = [] -> next_fault w = false.
Proof. unfold next_fault. now intros ->. Qed.

Lemma quiet_sent (w : World) d n : faults w = [] -> faults (sent w d n) = [].
Proof. unfold sent. simpl. now intros ->. Qed.

Lemma report_app evs evs' :
  report (evs ++ evs') = (report evs ++ report evs')%list.
Proof.
  induction evs as [|[] evs IH]; simpl; auto. now rewrite IH.
Qed.

Lemma report_matches_log username n : report (matches_log username n) = [].
Proof.
  unfold matches_log. destruct (Nat.eqb n 0); [reflexivity|].
  destruct (Nat.ltb 1 n); reflexivity.
Qed.

Lemma missing_value_report verb username items w :
  report (snd (missing_value verb username items w)) = [].
Proof.
  induction items as [|[k v] items IH]; simpl; [reflexivity|].
  destruct (String.eqb v ""); [reflexivity | exact IH].
Qed.

Ltac quiet_step :=
  match goal with
  | |- context [next_fault ?w] =>
      rewrite (@next_fault_quiet w) by (repeat apply quiet_sent; assumption)
  end.

Ltac split_missing_report :=
  match goal with
  | |- context [missing_value ?v ?u ?items ?w] =>
      let H := fresh "Hmiss" in
      let Hrep := fresh "Hrep" in
      pose proof (missing_value_report v u items w) as Hrep;
      destruct (missing_value v u items w) as [[? ?] ?] eqn:H;
      apply missing_value_inv in H as (-> & _ & [-> | [? ->]]);
      cbn [snd] in Hrep
  end.

Ltac finish_quiet :=
  unfold returns_quietly;
  repeat first
    [ rewrite report_app
    | rewrite report_matches_log
    | match goal with H : report _ = [] |- _ => rewrite H end
    | progress cbn ];
  (split; [eexists; reflexivity
          | split; [repeat apply quiet_sent; assumption | reflexivity]]).

Lemma create_returns_quietly
    (username givenName fullName sn employeeType dNumber ou businessCategory
     userPassword : string) (w : World) :
  faults w = [] ->
  returns_quietly
    (create cfg sha1_b64 dict_iter username givenName fullName sn
            employeeType dNumber ou businessCategory userPassword w).
Proof.
  intros Hq. unfold create. unfold_stmts.
  split_missing_report; repeat first [quiet_step | exec_step]; finish_quiet.
Qed.

Lemma update_returns_quietly
    (username newusername uidNumber gidNumber givenName fullName sn
     employeeType dNumber ou businessCategory : string) (w : World) :
  faults w = [] ->
  returns_quietly
    (update cfg dict_iter username newusername uidNumber gidNumber
            givenName fullName sn employeeType dNumber ou businessCategory w).
Proof.
  intros Hq. unfold update. unfold_stmts.
  split_missing_report; repeat first [quiet_step | exec_step]; finish_quiet.
Qed.

Lemma delete_returns_quietly (username : string) (w : World) :
  faults w = [] -> returns_quietly (delete cfg username w).
Proof.
  intros Hq. unfold delete. unfold_stmts.
  repeat first [quiet_step | exec_step]; finish_quiet.
Qed.

Lemma process_row_quiet (row : Row) (w : World) :
  faults w = [] ->
  let '(o, w', evs) := process_row cfg sha1_b64 dict_iter row w in
  o = Next tt /\ faults w' = [] /\
  exists result, report evs = [[r_action row; r_username row; result]].
Proof.
  intros Hq. unfold process_row, bind, writer_writerow, emit.
  destruct (String.eqb (r_action row) "create").
  { pose proof (@create_returns_quietly (r_username row) (r_givenName row)
                  (r_fullName row) (r_sn row) (r_employeeType row)
                  (r_DNumber row) (r_primO row) (r_businessCategory row)
                  (r_userPassword row) w Hq) as H.
    destruct (create _ _ _ _ _ _ _ _ _ _ _ _ w) as [[o w'] evs].
    destruct H as ([result ->] & Hq' & Hrep).
    rewrite report_app, Hrep. repeat split; [assumption | now exists result]. }
  destruct (String.eqb (r_action row) "update").
  { pose proof (@update_returns_quietly (r_username row) (r_newusername row)
                  (r_uidNumber row) (r_gidNumber row) (r_givenName row)
                  (r_fullName row) (r_sn row) (r_employeeType row)
                  (r_DNumber row) (r_primO row) (r_businessCategory row) w
                  Hq) as H.
    destruct (update _ _ _ _ _ _ _ _ _ _ _ _ _ w) as [[o w'] evs].
    destruct H as ([result ->] & Hq' & Hrep).
    rewrite report_app, Hrep. repeat split; [assumption | now exists result]. }
  destruct (String.eqb (r_action row) "delete").
  { pose proof (@delete_returns_quietly (r_username row) w Hq) as H.
    destruct (delete _ _ w) as [[o w'] evs].
    destruct H as ([result ->] & Hq' & Hrep).
    rewrite report_app, Hrep. repeat split; [assumption | now exists result]. }
  cbn. repeat split; [assumption | eexists; reflexivity].
Qed.

Lemma for_rows_quiet (rows : list Row) (w : World) :
  faults w = [] ->
  let '(o, w', evs) := for_rows cfg sha1_b64 dict_iter rows w in
  o = Next tt /\ faults w' = [] /\
  map (firstn 2) (report evs)
  = map (fun row => [r_action row; r_username row]) rows.
Proof.
  revert w. induction rows as [|row rows IH]; intros w Hq.
  - cbn. repeat split. assumption.
  - cbn [for_rows]. unfold bind.
    pose proof (@process_row_quiet row w Hq) as H.
    destruct (process_row _ _ _ row w) as [[o w1] ev1].
    destruct H as (-> & Hq1 & [result Hrep]).
    specialize (IH w1 Hq1).
    destruct (for_rows _ _ _ rows w1) as [[o2 w2] ev2].
    destruct IH as (-> & Hq2 & Hrows).
    rewrite report_app, Hrep.
    split; [reflexivity | split; [assumption|]].
    cbn [app]. rewrite map_cons. now rewrite Hrows.
Qed.

(** When no request meets a fault, the report is the header followed by
    one row per record, in the order of the input, beginning with the
    record's action and username. The records are those of [Row]: every
    key is there and every value is a string the report can hold. *)
Lemma main_reports_every_row (in_file out_file : string) (rows : list Row)
    (w : World) :
  faults w = [] ->
  map (firstn 2)
      (report (snd (main cfg sha1_b64 dict_iter in_file out_file rows w)))
  = ["action"; "username"]
      :: map (fun row => [r_action row; r_username row]) rows.
Proof.
  intros Hq.
  unfold main, def, bind, try_except, logging_info, writer_writerow, emit.
  pose proof (@for_rows_quiet rows w Hq) as H.
  destruct (for_rows _ _ _ rows w) as [[o w'] evs].
  destruct H as (-> & _ & Hrows).
  unfold return_. cbn [snd app report].
  rewrite report_app, map_cons, map_app, Hrows.
  cbn [report map app]. now rewrite app_nil_r.
Qed.

End Batch.

(* ===================================================================== *)
(** * The existence check under a transport fault                        *)
(* ===================================================================== *)

(** Whatever the username and the directory, a search that meets a fault
    makes the check raise [UnboundLocalError] after it has printed and
    logged the search error: no answer comes back. *)
Lemma existence_check_raises (cfg : Settings) (R : Type) (l : LDAPObject)
    (username : string) (w : World) :
  next_fault w = true ->
  fst (fst (findUser (R:=R) cfg l username w))
    = Raise (UnboundLocalError "ldap_result") /\
  fst (fst (containsPosixAccount (R:=R) cfg l username w))
    = Raise (UnboundLocalError "ldap_result").
Proof.
  intros H. now rewrite findUser_run, containsPosixAccount_run, H.
Qed.

(** C3. With one entry for "alice" and a fault on the search, [findUser]
    and [containsPosixAccount] print and log the search error and then
    raise [UnboundLocalError] for [ldap_result]: they do not return
    false. *)
Theorem existence_check_fault_escapes :
  findUser (R:=unit) Sample.cfg (ldap_initialize "ldaps://ldap.example.edu:636/")
           "alice" (Sample.world [Sample.staff "alice" Sample.person] [true])
  = (Raise (UnboundLocalError "ldap_result"),
     Sample.world [Sample.staff "alice" Sample.person] [],
     [EvLdap (Search "dc=example,dc=edu" "uid=alice") false;
      EvPrint "ERROR: problems with LDAP search: Can't contact LDAP server";
      EvLog ERROR "problem with LDAP search for: alice"]) /\
  fst (fst (containsPosixAccount (R:=unit) Sample.cfg
              (ldap_initialize "ldaps://ldap.example.edu:636/") "alice"
              (Sample.world [Sample.staff "alice" Sample.posix_person]
                            [true])))
  = Raise (UnboundLocalError "ldap_result").
Proof. split; reflexivity. Qed.

(* ===================================================================== *)
(** * The batch                                                          *)
(* ===================================================================== *)

(** C1. Two delete records, and a fault on the first record's search:
    the exception leaves [delete], ends the loop in [main], and the report
    has its header and no row, neither for the first record nor for the
    second. Without the fault the same batch gives its two rows. *)
Theorem batch_stops_at_failed_search :
  report (snd (main Sample.cfg Sample.sha1_b64 Sample.in_order
                    "input.json" "output.csv"
                    [Sample.row "delete" "ghost1" "ghost1";
                     Sample.row "delete" "ghost2" "ghost2"]
                    (Sample.world [] [false; true])))
  = [["action"; "username"; "result"]] /\
  report (snd (main Sample.cfg Sample.sha1_b64 Sample.in_order
                    "input.json" "output.csv"
                    [Sample.row "delete" "ghost1" "ghost1";
                     Sample.row "delete" "ghost2" "ghost2"]
                    (Sample.world [] [])))
  = [["action"; "username"; "result"];
     ["delete"; "ghost1"; "ERROR: user could not be found!"];
     ["delete"; "ghost2"; "ERROR: user could not be found!"]].
Proof. split; reflexivity. Qed.

(* ===================================================================== *)
(** * Update under transport faults                                      *)
(* ===================================================================== *)

(** C2. An update renaming "alice" to "alicia". With a fault on the
    rename and one on the posixAccount search, it returns "SUCCESS: User
    updated in ldap" having renamed and modified nothing. With a fault on
    the rename and on the search that follows it, [UnboundLocalError]
    leaves [update]. And without a rename, a fault on the posixAccount
    search makes [UnboundLocalError] for [dn] leave [update]. *)
Theorem update_after_failed_rename :
  (let '(o, w', evs) :=
     Sample.update_row (Sample.row "update" "alice" "alicia")
       (Sample.world [Sample.staff "alice" Sample.posix_person]
                     [false; false; false; true; false; true]) in
   o = Next "SUCCESS: User updated in ldap" /\
   requests evs =
     [(Bind "ldaps://ldap.example.edu:636/" "cn=admin,dc=example,dc=edu",
       true);
      (Search "dc=example,dc=edu" "uid=alice", true);
      (Search "dc=example,dc=edu" "uid=alicia", true);
      (Rename "uid=alice,ou=staff,dc=example,dc=edu" "uid=alicia", false);
      (Search "dc=example,dc=edu" "uid=alicia", true);
      (Search "dc=example,dc=edu" "(&(uid=alice)(objectClass=posixAccount))",
       false)] /\
   dir w' = [Sample.staff "alice" Sample.posix_person]) /\
  fst (fst (Sample.update_row (Sample.row "update" "alice" "alicia")
              (Sample.world [Sample.staff "alice" Sample.posix_person]
                            [false; false; false; true; true])))
  = Raise (UnboundLocalError "ldap_result") /\
  fst (fst (Sample.update_row (Sample.row "update" "alice" "alice")
              (Sample.world [Sample.staff "alice" Sample.posix_person]
                            [false; false; true])))
  = Raise (UnboundLocalError "dn").
Proof. repeat split; reflexivity. Qed.

(* ===================================================================== *)
(** * The connection on the early returns                                *)
(* ===================================================================== *)


(* ===================================================================== *)
(** * The posixAccount check after a refused rename                      *)
(* ===================================================================== *)

(** C10. An update renaming "alice", a posixAccount, to "alicia", where
    the rename is not carried out: once because the entry lies in the
    guests' container and not at the DN [buildDN] computes, once because
    the rename meets a fault. The handler of the rename does not return,
    the update goes on, the posixAccount search for "alice" finds the
    entry, and the modify the update sends carries the three replacements
    of uidNumber, gidNumber and homeDirectory, not the nine. *)
Theorem refused_rename_selects_posix :
  let requests_sent :=
    [(Bind "ldaps://ldap.example.edu:636/" "cn=admin,dc=example,dc=edu",
      true);
     (Search "dc=example,dc=edu" "uid=alice", true);
     (Search "dc=example,dc=edu" "uid=alicia", true);
     (Rename "uid=alice,ou=staff,dc=example,dc=edu" "uid=alicia", false);
     (Search "dc=example,dc=edu" "uid=alicia", true);
     (Search "dc=example,dc=edu" "(&(uid=alice)(objectClass=posixAccount))",
      true);
     (Modify "uid=alicia,ou=staff,dc=example,dc=edu"
             [(MOD_REPLACE, "uidNumber", "15549");
              (MOD_REPLACE, "gidNumber", "15549");
              (MOD_REPLACE, "homeDirectory", "/home/alicia")], false)] in
  "alice" <> "alicia" /\
  (let '(o, _, evs) :=
     Sample.update_row (Sample.row "update" "alice" "alicia")
       (Sample.world [ {| e_uid := "alice";
                          e_parent := ",ou=guests,dc=example,dc=edu";
                          e_classes := Sample.posix_person;
                          e_attrs := [("cn", ["alice"])] |} ] []) in
   o = Next "ERROR: Could not update ldap user" /\
   requests evs = requests_sent) /\
  (let '(o, _, evs) :=
     Sample.update_row (Sample.row "update" "alice" "alicia")
       (Sample.world [Sample.staff "alice" Sample.posix_person]
                     [false; false; false; true]) in
   o = Next "ERROR: Could not update ldap user" /\
   requests evs = requests_sent).
Proof. repeat split; [discriminate | reflexivity..]. Qed.

(* ===================================================================== *)
(** * The general statements at the sample inputs                        *)
(* ===================================================================== *)

Lemma in_order_perm (d : list (string * string)) :
  Permutation (Sample.in_order d) d.
Proof. apply Permutation_refl. Defined.

Lemma create_existing_user_witness :
  let '(o, w', evs) :=
    create (R:=unit) Sample.cfg Sample.sha1_b64 Sample.in_order
           "alice" "Jane" "Jane Doe" "Doe" "ADM" "D0000001" "Biology"
           "staff" "pw1"
           (Sample.world [Sample.staff "alice" Sample.person] []) in
  o = Next "ERROR: username already taken!" /\
  requests evs =
    [(Bind (LDAPSERVER Sample.cfg) (USER Sample.cfg), true);
     (Search (baseDN Sample.cfg) ("uid=" ++ "alice"), true)] /\
  sends is_add evs = false /\
  dir w' = dir (Sample.world [Sample.staff "alice" Sample.person] []).
Proof.
  apply (@create_existing_user Sample.cfg Sample.sha1_b64 Sample.in_order
           in_order_perm "alice" "Jane" "Jane Doe" "Doe" "ADM" "D0000001"
           "Biology" "staff" "pw1"
           (Sample.world [Sample.staff "alice" Sample.person] []));
    reflexivity.
Defined.

Lemma missing_user_not_found_witness :
  let '(o, w', evs) :=
    delete (R:=unit) Sample.cfg "ghost" (Sample.world [] []) in
  o = Next "ERROR: user could not be found!" /\
  requests evs =
    [(Bind (LDAPSERVER Sample.cfg) (USER Sample.cfg), true);
     (Search (baseDN Sample.cfg) ("uid=" ++ "ghost"), true)] /\
  sends is_write evs = false /\
  dir w' = dir (Sample.world [] []).
Proof.
  exact (proj2 (@missing_user_not_found Sample.cfg Sample.in_order
                  in_order_perm "ghost" "ghost" "15549" "15549" "Jane"
                  "Jane Doe" "Doe" "ADM" "D0000001" "Biology" "staff"
                  (Sample.world [] []) eq_refl eq_refl
                  ltac:(discriminate))
               eq_refl).
Defined.

Lemma cross_type_rename_refused_witness :
  getUserType Sample.cfg "alice" <> getUserType Sample.cfg "alice_stu" /\
  let '(o, w', evs) :=
    update (R:=unit) Sample.cfg Sample.in_order "alice" "alice_stu" "15549"
           "15549" "Jane" "Jane Doe" "Doe" "ADM" "D0000001" "Biology" "staff"
           (Sample.world [Sample.staff "alice" Sample.person] []) in
  sends is_rename evs = false /\
  sends is_modify evs = false /\
  dir w' = dir (Sample.world [Sample.staff "alice" Sample.person] []) /\
  o <> Next "SUCCESS: User updated in ldap" /\
  o = Next "ERROR: won't rename users across different types".
Proof.
  split; [discriminate|].
  pose proof (@cross_type_rename_refused Sample.cfg Sample.in_order
                in_order_perm "alice" "alice_stu" "15549" "15549" "Jane"
                "Jane Doe" "Doe" "ADM" "D0000001" "Biology" "staff"
                (Sample.world [Sample.staff "alice" Sample.person] [])
                ltac:(discriminate) ltac:(discriminate)) as H.
  destruct (update _ _ _ _ _ _ _ _ _ _ _ _ _ _) as [[o w'] evs].
  destruct H as (H1 & H2 & H3 & H4 & H5).
  repeat split; try assumption.
  apply H5; reflexivity.
Defined.

Lemma missing_field_outcome_witness :
  exists before item after,
    Sample.in_order
      [("username", "jdoe"); ("givenName", ""); ("fullName", "Jane Doe");
       ("sn", "Doe"); ("employeeType", "ADM"); ("dNumber", "D0000001");
       ("ou", ""); ("businessCategory", "staff"); ("userPassword", "pw1")]
    = (before ++ (item, "") :: after)%list /\
    filled (map snd before) = true /\
    create (R:=unit) Sample.cfg Sample.sha1_b64 Sample.in_order
           "jdoe" "" "Jane Doe" "Doe" "ADM" "D0000001" "" "staff" "pw1"
           (Sample.world [] [])
    = (Next ("ERROR: Missing an expected input value for " ++ item
             ++ " in input file"), Sample.world [] [],
       [EvPrint ("ERROR: unable to create user " ++ "jdoe"
                 ++ " because " ++ item ++ " is missing a value");
        EvLog ERROR ("unable to create user " ++ "jdoe"
                     ++ " because " ++ item ++ " is missing a value")]).
Proof.
  exact (proj1 (@missing_field_outcome Sample.cfg Sample.sha1_b64
                  Sample.in_order in_order_perm)
               "jdoe" "" "Jane Doe" "Doe" "ADM" "D0000001" "" "staff" "pw1"
               (Sample.world [] []) eq_refl).
Defined.


(* ===================================================================== *)
(** * Where the specification and the script part                        *)
(* ===================================================================== *)

(** C5, as the specification has it, fails: the message for a missing
    username does not contain "missing value for", and it ends with "in
    input file". *)
Lemma missing_value_message_differs :
  exists out,
    fst (fst (delete (R:=unit) Sample.cfg "" (Sample.world [] [])))
      = Next out /\
    out = "ERROR: Missing an expected input value for username in input file"
    /\
    Text.contains "missing value for" out = false /\
    fst (fst (Sample.create_row (Sample.row "create" "" "")
                                (Sample.world [] [])))
      = Next out.
Proof. eexists. repeat split; reflexivity. Qed.

(** The field the message names is the first in iteration order: with
    the username and the password both missing, an iteration in the
    parameters' order names the username, one in the reverse order the
    password. *)
Example first_missing_depends_on_order :
  fst (fst (create (R:=unit) Sample.cfg Sample.sha1_b64 Sample.in_order
                   "" "Jane" "Jane Doe" "Doe" "ADM" "D0000001" "Biology"
                   "staff" "" (Sample.world [] [])))
  = Next "ERROR: Missing an expected input value for username in input file"
  /\
  fst (fst (create (R:=unit) Sample.cfg Sample.sha1_b64 Sample.reversed
                   "" "Jane" "Jane Doe" "Doe" "ADM" "D0000001" "Biology"
                   "staff" "" (Sample.world [] [])))
  = Next ("ERROR: Missing an expected input value for userPassword "
          ++ "in input file").
Proof. split; reflexivity. Qed.

(* ===================================================================== *)
(** * Fields that have a value                                           *)
(* ===================================================================== *)

Section Fields.

Lemma filled_cons (v : string) (vs : list string) :
  filled (v :: vs) = true <-> String.eqb v "" = false /\ filled vs = true.
Proof.
  unfold filled. simpl. rewrite andb_true_iff, negb_true_iff. tauto.
Qed.


Lemma filled_incl (l l' : list string) :
  incl l' l -> filled l = true -> filled l' = true.
Proof. unfold filled. rewrite !forallb_forall. auto. Qed.

End Fields.

(* ===================================================================== *)
(** * What every run of a processor keeps to                             *)
(* ===================================================================== *)

Section Behaviour.

Variable cfg : Settings.
Variable sha1_b64 : string -> string.
Variable dict_iter : list (string * string) -> list (string * string).

Lemma report_search_failed base filter username desc :
  report (search_failed base filter username desc) = [].
Proof. reflexivity. Qed.

Ltac split_missing_both :=
  match goal with
  | |- context [missing_value ?v ?u ?items ?w] =>
      let H := fresh "Hmiss" in
      let Hreq := fresh "Hreq" in
      let Hrep := fresh "Hrep" in
      pose proof (missing_value_report v u items w) as Hrep;
      destruct (missing_value v u items w) as [[? ?] ?] eqn:H;
      apply missing_value_inv in H as (-> & Hreq & [-> | [? ->]]);
      cbn [snd] in Hrep
  end.

Lemma well_behaved_intro (w w' : World) (o : outcome unit string)
    (evs : list event) (reqs : list (ldap_op * bool)) :
  report evs = [] ->
  requests evs = reqs ->
  in_protocol reqs = true ->
  (forall s, o = Next s -> tagged s = true) ->
  (forall e, o = Raise e -> is_LDAPError e = false) ->
  (existsb (fun r => is_write (fst r) && snd r) reqs = false ->
   dir w' = dir w) ->
  (existsb (fun r => is_unbind (fst r) && snd r) reqs = true ->
   exists s, o = Next s /\ Text.starts_with "SUCCESS: " s = true) ->
  well_behaved w (o, w', evs).
Proof.
  intros Hrep <- Hproto Htag Hexn Hdir Hclosed.
  unfold well_behaved, closed, succeeds. auto 10.
Qed.

#[local] Arguments well_behaved : simpl never.

Ltac norm_report :=
  repeat first
    [ rewrite report_app
    | rewrite report_matches_log
    | rewrite report_search_failed
    | match goal with H : report _ = [] |- _ => rewrite H end
    | progress cbn [report app] ].

Ltac norm_sent :=
  repeat first
    [ rewrite requests_app
    | rewrite requests_matches_log
    | rewrite requests_search_failed
    | match goal with H : requests _ = [] |- _ => rewrite H end
    | progress cbn [requests app] ].

Ltac decide_requests H :=
  cbn [existsb is_write is_add is_rename is_modify is_delete is_unbind
       fst snd orb andb] in H;
  discriminate H.

Ltac finish_behaved :=
  eapply well_behaved_intro;
  [ norm_report; reflexivity
  | norm_sent; reflexivity
  | reflexivity
  | intros ? Ho; try discriminate Ho; injection Ho as <-; reflexivity
  | intros ? Ho; try discriminate Ho; injection Ho as <-; reflexivity
  | first [ intros _; reflexivity
          | let H := fresh in intros H; decide_requests H ]
  | first [ intros _; eexists; split; reflexivity
          | let H := fresh in intros H; decide_requests H ] ].

Ltac norm_events :=
  repeat first
    [ rewrite requests_app
    | rewrite requests_matches_log
    | rewrite requests_search_failed
    | rewrite report_app
    | rewrite report_matches_log
    | rewrite report_search_failed
    | match goal with H : requests _ = [] |- _ => rewrite H end
    | match goal with H : report _ = [] |- _ => rewrite H end
    | progress cbn ].

Lemma create_well_behaved
    (username givenName fullName sn employeeType dNumber ou businessCategory
     userPassword : string) (w : World) :
  well_behaved w
    (create cfg sha1_b64 dict_iter username givenName fullName sn
            employeeType dNumber ou businessCategory userPassword w).
Proof.
  unfold create. unfold_stmts.
  split_missing_both; repeat exec_step; finish_behaved.
Qed.

Lemma update_well_behaved
    (username newusername uidNumber gidNumber givenName fullName sn
     employeeType dNumber ou businessCategory : string) (w : World) :
  well_behaved w
    (update cfg dict_iter username newusername uidNumber gidNumber
            givenName fullName sn employeeType dNumber ou businessCategory w).
Proof.
  unfold update. unfold_stmts.
  split_missing_both; repeat exec_step; finish_behaved.
Qed.

Lemma delete_well_behaved (username : string) (w : World) :
  well_behaved w (delete cfg username w).
Proof.
  unfold delete. unfold_stmts. repeat exec_step; finish_behaved.
Qed.

(** [create] and [delete] return their success exactly when the write
    and the unbind went through. *)
Lemma create_success_iff
    (username givenName fullName sn employeeType dNumber ou businessCategory
     userPassword : string) (w : World) :
  let '(o, w', evs) :=
    create (R:=unit) cfg sha1_b64 dict_iter username givenName fullName sn
           employeeType dNumber ou businessCategory userPassword w in
  o = Next "SUCCESS: User added to ldap" <->
  succeeds is_add evs = true /\ closed evs = true.
Proof.
  unfold create. unfold_stmts.
  split_missing_both; repeat exec_step;
    unfold closed, succeeds; norm_events;
    (split; [intros Ho; try discriminate Ho;
             try (injection Ho as Ho; cbv in Ho; discriminate Ho);
             split; reflexivity
            | intros [H1 H2]; try discriminate H1; try discriminate H2;
              reflexivity]).
Qed.

Lemma delete_success_iff (username : string) (w : World) :
  let '(o, w', evs) := delete (R:=unit) cfg username w in
  o = Next "SUCCESS: User deleted from ldap" <->
  succeeds is_delete evs = true /\ closed evs = true.
Proof.
  unfold delete. unfold_stmts.
  repeat exec_step;
    unfold closed, succeeds; norm_events;
    (split; [intros Ho; try discriminate Ho;
             try (injection Ho as Ho; cbv in Ho; discriminate Ho);
             split; reflexivity
            | intros [H1 H2]; try discriminate H1; try discriminate H2;
              reflexivity]).
Qed.

End Behaviour.

(* ===================================================================== *)
(** * The report, whatever happens                                       *)
(* ===================================================================== *)

Section Report.

Variable cfg : Settings.
Variable sha1_b64 : string -> string.
Variable dict_iter : list (string * string) -> list (string * string).

Lemma def_never_returns {R R'} (body : M R R) (w : World) (r : R') :
  fst (fst (def body w)) <> Return r.
Proof. unfold def. destruct (body w) as [[[a|r'|e] w'] evs]; discriminate. Qed.

(** A record gives one row, with a tagged result, or an exception that is
    no [ldap.LDAPError] and no row. *)
Lemma process_row_cases (row : Row) (w : World) :
  let '(o, w', evs) := process_row cfg sha1_b64 dict_iter row w in
  (o = Next tt /\
   exists result, tagged result = true /\
     report evs = [[r_action row; r_username row; result]]) \/
  (exists e, o = Raise e /\ is_LDAPError e = false /\ report evs = []).
Proof.
  assert (Hp : forall (run : outcome unit string * World * list event),
             well_behaved w run ->
             (forall r, fst (fst run) <> Return r) ->
             let '(o, w', evs) :=
               bind (fun _ => run)
                    (fun result =>
                       writer_writerow (R:=unit)
                         [r_action row; r_username row; result]) w in
             (o = Next tt /\
              exists result, tagged result = true /\
                report evs = [[r_action row; r_username row; result]]) \/
             (exists e, o = Raise e /\ is_LDAPError e = false /\
                        report evs = [])).
  { intros [[o w'] evs] (Hrep & _ & Htag & Hexn & _) Hret.
    unfold bind, writer_writerow, emit.
    destruct o as [s|r|e].
    - left. split; [reflexivity|]. exists s.
      rewrite report_app, Hrep. split; [now apply Htag | reflexivity].
    - exfalso. now apply (Hret r).
    - right. exists e. repeat split; [now apply Hexn | exact Hrep]. }
  unfold process_row.
  destruct (String.eqb (r_action row) "create").
  { apply (Hp _ (create_well_behaved cfg sha1_b64 dict_iter
                                     _ _ _ _ _ _ _ _ _ w)).
    intros r. apply def_never_returns. }
  destruct (String.eqb (r_action row) "update").
  { apply (Hp _ (update_well_behaved cfg dict_iter _ _ _ _ _ _ _ _ _ _ _ w)).
    intros r. apply def_never_returns. }
  destruct (String.eqb (r_action row) "delete").
  { apply (Hp _ (delete_well_behaved cfg _ w)).
    intros r. apply def_never_returns. }
  left. split; [reflexivity|].
  exists "ERROR: Unrecognized action". split; reflexivity.
Qed.

(** The loop writes the rows of the first [n] records and stops there:
    all of them, unless an exception left a processor. *)
Lemma for_rows_prefix (rows : list Row) (w : World) :
  let '(o, w', evs) := for_rows cfg sha1_b64 dict_iter rows w in
  exists n,
    n <= List.length rows /\
    map (firstn 2) (report evs)
    = map (fun row => [r_action row; r_username row]) (firstn n rows) /\
    Forall (fun cols => List.length cols = 3 /\
                        tagged (nth 2 cols "") = true) (report evs) /\
    (o = Next tt -> n = List.length rows) /\
    (forall e, o = Raise e -> n < List.length rows) /\
    (forall r, o <> Return r).
Proof.
  revert w. induction rows as [|row rows IH]; intros w.
  - cbn. exists 0. repeat split; auto; discriminate.
  - cbn [for_rows]. unfold bind.
    pose proof (process_row_cases row w) as H.
    destruct (process_row _ _ _ row w) as [[o w1] ev1].
    destruct H as [(-> & result & Htag & Hrep) | (e & -> & _ & Hrep)].
    + specialize (IH w1).
      destruct (for_rows _ _ _ rows w1) as [[o2 w2] ev2].
      destruct IH as (n & Hn & Hrows & Hall & Hnext & Hraise & Hret).
      exists (S n). rewrite report_app, Hrep. cbn [app List.length].
      rewrite firstn_cons, !map_cons, Hrows.
      split; [lia|]. split; [reflexivity|].
      split; [constructor; [split; [reflexivity | exact Htag] | exact Hall]|].
      split; [intros Ho; now rewrite (Hnext Ho)|].
      split; [intros e Ho; specialize (Hraise e Ho); lia | exact Hret].
    + exists 0. rewrite Hrep. cbn. repeat split; auto; try discriminate; lia.
Qed.

(** X1. The report is the header and then, for the first [n] records of
    the input in their order, one row each: the record's action, its
    username and a tagged result. [main] itself always returns, and the
    two lines that log the closing of the files are its last events. *)
Theorem report_is_prefix_of_input (in_file out_file : string)
    (rows : list Row) (w : World) :
  let '(o, w', evs) :=
    main cfg sha1_b64 dict_iter in_file out_file rows w in
  o = Next tt /\
  (exists n,
      n <= List.length rows /\
      map (firstn 2) (report evs)
      = ["action"; "username"]
          :: map (fun row => [r_action row; r_username row])
                 (firstn n rows) /\
      Forall (fun cols => List.length cols = 3) (report evs) /\
      Forall (fun cols => tagged (nth 2 cols "") = true) (tl (report evs))) /\
  (exists before,
      evs = (before ++ [EvLog INFO ("closed file: " ++ in_file);
                        EvLog INFO ("closed file: " ++ out_file)])%list).
Proof.
  unfold main, def, bind, try_except, logging_info, logging_critical, print,
    writer_writerow, emit, return_.
  pose proof (for_rows_prefix rows w) as H.
  destruct (for_rows _ _ _ rows w) as [[o w'] evs].
  destruct H as (n & Hn & Hrows & Hall & _ & _ & Hret).
  assert (Hgoal : forall evs1,
             report evs1 = ["action"; "username"; "result"] :: report evs ->
             exists n0,
               n0 <= List.length rows /\
               map (firstn 2) (report evs1)
               = ["action"; "username"]
                   :: map (fun row => [r_action row; r_username row])
                          (firstn n0 rows) /\
               Forall (fun cols => List.length cols = 3) (report evs1) /\
               Forall (fun cols => tagged (nth 2 cols "") = true)
                      (tl (report evs1))).
  { intros evs1 ->. exists n. rewrite map_cons, Hrows. cbn [tl].
    repeat split; auto.
    - constructor; [reflexivity|].
      eapply Forall_impl; [|exact Hall]. now intros cols [H _].
    - eapply Forall_impl; [|exact Hall]. now intros cols [_ H]. }
  destruct o as [[]|r|e]; cbv beta iota zeta.
  - split; [reflexivity|]. split.
    + apply Hgoal. rewrite !report_app. cbn [report app].
      now rewrite !app_nil_r.
    + eexists. reflexivity.
  - exfalso. now apply (Hret r).
  - split; [reflexivity|]. split.
    + apply Hgoal. rewrite !report_app. cbn [report app].
      now rewrite !app_nil_r.
    + eexists. reflexivity.
Qed.

End Report.

(* ===================================================================== *)
(** * What the processors answer                                         *)
(* ===================================================================== *)

Section Outcomes.

Variable cfg : Settings.
Variable sha1_b64 : string -> string.
Variable dict_iter : list (string * string) -> list (string * string).
Hypothesis dict_iter_perm : forall d, Permutation (dict_iter d) d.

Ltac all_filled H :=
  refine (filled_incl _ H);
  let x := fresh "x" in
  let Hx := fresh "Hx" in
  intros x Hx; cbn [In] in *; tauto.

(** X4. Every run of a processor, whatever the directory holds and wherever
    a fault strikes: it writes no row of the report itself; it sends
    nothing before a bind, nothing after a bind that failed, no second
    bind and nothing behind an unbind; what it returns is tagged "ERROR: "
    or "SUCCESS: "; no [ldap.LDAPError] leaves it; the directory changes
    only when a write went through; and once the unbind went through the
    result is a success. *)
Theorem processors_well_behaved
    (username newusername uidNumber gidNumber givenName fullName sn
     employeeType dNumber ou businessCategory userPassword : string)
    (w : World) :
  well_behaved w
    (create cfg sha1_b64 dict_iter username givenName fullName sn
            employeeType dNumber ou businessCategory userPassword w) /\
  well_behaved w
    (update cfg dict_iter username newusername uidNumber gidNumber
            givenName fullName sn employeeType dNumber ou businessCategory
            w) /\
  well_behaved w (delete cfg username w).
Proof.
  split; [apply create_well_behaved|].
  split; [apply update_well_behaved | apply delete_well_behaved].
Qed.

(** X5. [create] and [delete] return their success exactly when their write
    and their unbind both went through. *)
Theorem success_means_written_and_released
    (username givenName fullName sn employeeType dNumber ou businessCategory
     userPassword : string) (w : World) :
  (let '(o, w', evs) :=
     create (R:=unit) cfg sha1_b64 dict_iter username givenName fullName sn
            employeeType dNumber ou businessCategory userPassword w in
   o = Next "SUCCESS: User added to ldap" <->
   succeeds is_add evs = true /\ closed evs = true) /\
  (let '(o, w', evs) := delete (R:=unit) cfg username w in
   o = Next "SUCCESS: User deleted from ldap" <->
   succeeds is_delete evs = true /\ closed evs = true).
Proof.
  split; [apply create_success_iff | apply delete_success_iff].
Qed.

(** X6. When the bind meets a fault, each processor returns "ERROR: unable
    to connect to LDAP server" and has sent nothing but that bind. *)
Theorem failed_bind_ends_the_call
    (username newusername uidNumber gidNumber givenName fullName sn
     employeeType dNumber ou businessCategory userPassword : string)
    (w : World) :
  fault_at 0 w = true ->
  filled [username; newusername; uidNumber; gidNumber; givenName; fullName;
          sn; employeeType; dNumber; ou; businessCategory; userPassword]
  = true ->
  connect_failed cfg w
    (create cfg sha1_b64 dict_iter username givenName fullName sn
            employeeType dNumber ou businessCategory userPassword w) /\
  connect_failed cfg w
    (update cfg dict_iter username newusername uidNumber gidNumber
            givenName fullName sn employeeType dNumber ou businessCategory
            w) /\
  connect_failed cfg w (delete cfg username w).
Proof.
  intros Hfault Hfilled. rewrite fault_at_0 in Hfault.
  assert (Hne : String.eqb username "" = false).
  { now apply filled_cons in Hfilled as [? _]. }
  split; [|split].
  - unfold create, def, bind.
    rewrite missing_value_filled
      by (rewrite (filled_perm (dict_iter_perm _)); cbn [map snd];
          all_filled Hfilled).
    rewrite ldapConnect_run, Hfault. unfold return_, connect_failed.
    repeat split.
  - unfold update, def, bind.
    rewrite missing_value_filled
      by (rewrite (filled_perm (dict_iter_perm _)); cbn [map snd];
          all_filled Hfilled).
    rewrite ldapConnect_run, Hfault. unfold return_, connect_failed.
    repeat split.
  - unfold delete, def, bind. rewrite Hne.
    rewrite ldapConnect_run, Hfault. unfold return_, connect_failed.
    repeat split.
Qed.

(** A record whose action is none of the three is answered without a
    word to the server. *)
Lemma process_row_unknown (row : Row) (w : World) :
  known_action (r_action row) = false ->
  process_row cfg sha1_b64 dict_iter row w
  = (Next tt, w,
     [EvPrint "ERROR: unrecognized action";
      EvLog ERROR "unrecognized action";
      EvWriteRow [r_action row; r_username row;
                  "ERROR: Unrecognized action"]]).
Proof.
  unfold known_action. rewrite !orb_false_iff. intros [[Hc Hu] Hd].
  unfold process_row. rewrite Hc, Hu, Hd. reflexivity.
Qed.

Lemma for_rows_unknown (rows : list Row) (w : World) :
  forallb (fun row => negb (known_action (r_action row))) rows = true ->
  exists evs,
    for_rows cfg sha1_b64 dict_iter rows w = (Next tt, w, evs) /\
    requests evs = [] /\
    report evs
    = map (fun row => [r_action row; r_username row;
                       "ERROR: Unrecognized action"]) rows.
Proof.
  induction rows as [|row rows IH]; cbn [forallb for_rows].
  - intros _. exists []. repeat split.
  - rewrite andb_true_iff, negb_true_iff. intros [Hrow Hrows].
    destruct (IH Hrows) as (evs & Hrun & Hreq & Hrep).
    unfold bind. rewrite (process_row_unknown row w Hrow), Hrun.
    eexists. split; [reflexivity|].
    split; [exact Hreq|]. cbn [app report map]. now rewrite Hrep.
Qed.

(** X3. A batch of records whose actions are all unknown sends nothing
    to the server and leaves the directory as it is; the report is the
    header and then, for the first records of the input up to some
    number, the row "ERROR: Unrecognized action" of each. *)
Theorem unknown_actions_never_reach_server (in_file out_file : string)
    (rows : list Row) (w : World) :
  forallb (fun row => negb (known_action (r_action row))) rows = true ->
  let '(_, w', evs) :=
    main cfg sha1_b64 dict_iter in_file out_file rows w in
  requests evs = [] /\
  dir w' = dir w /\
  exists n,
    n <= List.length rows /\
    report evs
    = ["action"; "username"; "result"]
        :: map (fun row => [r_action row; r_username row;
                            "ERROR: Unrecognized action"]) (firstn n rows).
Proof.
  intros Hrows.
  destruct (for_rows_unknown rows w Hrows) as (evs & Hrun & Hreq & Hrep).
  unfold main, def, bind, try_except, logging_info, writer_writerow, emit.
  rewrite Hrun. unfold return_.
  split; [|split; [reflexivity|]].
  - rewrite !requests_app, Hreq. reflexivity.
  - exists (List.length rows). split; [apply Nat.le_refl|].
    rewrite firstn_all, !report_app, Hrep. cbn [report app].
    now rewrite app_nil_r.
Qed.





Ltac name_facts :=
  repeat match goal with
         | H : negb (String.eqb _ _) = true |- _ =>
             apply negb_true_iff in H; apply String.eqb_neq in H
         | H : negb (String.eqb _ _) = false |- _ =>
             apply negb_false_iff in H; apply String.eqb_eq in H
         end.

Ltac allowed_request :=
  first [ left; reflexivity
        | left; split; [reflexivity | split; assumption]
        | right; allowed_request
        | reflexivity ].

Ltac each_request Hin :=
  cbn [In] in Hin;
  repeat match type of Hin with
         | _ \/ _ => destruct Hin as [Hin|Hin]
         | False => contradiction
         | _ = _ => injection Hin as <- <-; allowed_request
         end.

Ltac other_result Ho :=
  exfalso; first [ discriminate Ho | cbv in Ho; discriminate Ho ].

(** Every path of [update] at once: what it sends, and what it has sent
    when it refuses. *)
Lemma update_paths
    (username newusername uidNumber gidNumber givenName fullName sn
     employeeType dNumber ou businessCategory : string) (w : World) :
  let '(o, w', evs) :=
    update (R:=unit) cfg dict_iter username newusername uidNumber gidNumber
           givenName fullName sn employeeType dNumber ou businessCategory w in
  (forall op ok,
      In (op, ok) (requests evs) ->
      op = Bind (LDAPSERVER cfg) (USER cfg) \/
      op = Search (baseDN cfg) ("uid=" ++ username) \/
      op = Search (baseDN cfg) ("uid=" ++ newusername) \/
      op = Search (baseDN cfg)
                  ("(&(uid=" ++ username ++ ")(objectClass=posixAccount))") \/
      (op = Rename ("uid=" ++ username ++ ou_of cfg username)
                   ("uid=" ++ newusername) /\
       username <> newusername /\
       getUserType cfg username = getUserType cfg newusername) \/
      op = Modify ("uid=" ++ newusername ++ ou_of cfg newusername)
                  [(MOD_REPLACE, "givenName", givenName);
                   (MOD_REPLACE, "cn", fullName);
                   (MOD_REPLACE, "sn", sn);
                   (MOD_REPLACE, "uid", newusername);
                   (MOD_REPLACE, "mail", newusername ++ MAILDOMAIN cfg);
                   (MOD_REPLACE, "employeeType", employeeType);
                   (MOD_REPLACE, "employeeNumber", dNumber);
                   (MOD_REPLACE, "o", ou);
                   (MOD_REPLACE, "businessCategory", businessCategory)] \/
      op = Modify ("uid=" ++ newusername ++ ou_of cfg newusername)
                  [(MOD_REPLACE, "uidNumber", uidNumber);
                   (MOD_REPLACE, "gidNumber", gidNumber);
                   (MOD_REPLACE, "homeDirectory", "/home/" ++ newusername)] \/
      op = Unbind) /\
  (o = Next "ERROR: user could not be found!" ->
   requests evs = [(Bind (LDAPSERVER cfg) (USER cfg), true);
                   (Search (baseDN cfg) ("uid=" ++ username), true)] /\
   dir w' = dir w) /\
  (o = Next "ERROR: won't rename users across different types" ->
   requests evs = [(Bind (LDAPSERVER cfg) (USER cfg), true);
                   (Search (baseDN cfg) ("uid=" ++ username), true)] /\
   getUserType cfg username <> getUserType cfg newusername /\
   dir w' = dir w) /\
  (o = Next "ERROR: newusername already taken!" ->
   requests evs = [(Bind (LDAPSERVER cfg) (USER cfg), true);
                   (Search (baseDN cfg) ("uid=" ++ username), true);
                   (Search (baseDN cfg) ("uid=" ++ newusername), true)] /\
   username <> newusername /\
   dir w' = dir w).
Proof.
  unfold update. unfold_stmts.
  split_missing; repeat exec_step; norm_requests; name_facts;
    (split; [intros op ok Hin; each_request Hin |]);
    (split; [|split]); intros Ho;
    first [ other_result Ho
          | repeat rewrite dir_sent; repeat split;
            solve [reflexivity | assumption] ].
Qed.

(** X11. Whatever the record and the world, every request of an update
    is one of these: the bind; the search for the old name, for the new
    name, or for the old name among the posixAccounts; the rename of the
    old name's DN to the new name, and that only when the two names differ
    and are of one type; the modify at the new name's DN, either with the
    nine replacements of givenName, cn, sn, uid, mail, employeeType,
    employeeNumber, o and businessCategory or with the three of
    uidNumber, gidNumber and homeDirectory; the unbind. It sends no add
    and no delete, and it never touches the password. *)
Theorem update_sends_only
    (username newusername uidNumber gidNumber givenName fullName sn
     employeeType dNumber ou businessCategory : string) (w : World) :
  let '(_, _, evs) :=
    update (R:=unit) cfg dict_iter username newusername uidNumber gidNumber
           givenName fullName sn employeeType dNumber ou businessCategory w in
  forall op ok,
    In (op, ok) (requests evs) ->
    op = Bind (LDAPSERVER cfg) (USER cfg) \/
    op = Search (baseDN cfg) ("uid=" ++ username) \/
    op = Search (baseDN cfg) ("uid=" ++ newusername) \/
    op = Search (baseDN cfg)
                ("(&(uid=" ++ username ++ ")(objectClass=posixAccount))") \/
    (op = Rename ("uid=" ++ username ++ ou_of cfg username)
                 ("uid=" ++ newusername) /\
     username <> newusername /\
     getUserType cfg username = getUserType cfg newusername) \/
    op = Modify ("uid=" ++ newusername ++ ou_of cfg newusername)
                [(MOD_REPLACE, "givenName", givenName);
                 (MOD_REPLACE, "cn", fullName);
                 (MOD_REPLACE, "sn", sn);
                 (MOD_REPLACE, "uid", newusername);
                 (MOD_REPLACE, "mail", newusername ++ MAILDOMAIN cfg);
                 (MOD_REPLACE, "employeeType", employeeType);
                 (MOD_REPLACE, "employeeNumber", dNumber);
                 (MOD_REPLACE, "o", ou);
                 (MOD_REPLACE, "businessCategory", businessCategory)] \/
    op = Modify ("uid=" ++ newusername ++ ou_of cfg newusername)
                [(MOD_REPLACE, "uidNumber", uidNumber);
                 (MOD_REPLACE, "gidNumber", gidNumber);
                 (MOD_REPLACE, "homeDirectory", "/home/" ++ newusername)] \/
    op = Unbind.
Proof.
  pose proof (update_paths username newusername uidNumber gidNumber
                givenName fullName sn employeeType dNumber ou
                businessCategory w) as H.
  destruct (update _ _ _ _ _ _ _ _ _ _ _ _ _ w) as [[o w'] evs].
  exact (proj1 H).
Qed.

(** X13. The three refusals of an update, read from its result. "ERROR:
    user could not be found!" and "ERROR: won't rename users across
    different types" come after the bind and the search for the old name
    went through, and nothing else was sent; the second only for names of
    different types. "ERROR: newusername already taken!" comes after the
    bind and the searches for the old and the new name went through, for
    two names that differ, and nothing else was sent. In all three the
    directory is as before. *)
Theorem update_refusals
    (username newusername uidNumber gidNumber givenName fullName sn
     employeeType dNumber ou businessCategory : string) (w : World) :
  let '(o, w', evs) :=
    update (R:=unit) cfg dict_iter username newusername uidNumber gidNumber
           givenName fullName sn employeeType dNumber ou businessCategory w in
  (o = Next "ERROR: user could not be found!" ->
   requests evs = [(Bind (LDAPSERVER cfg) (USER cfg), true);
                   (Search (baseDN cfg) ("uid=" ++ username), true)] /\
   dir w' = dir w) /\
  (o = Next "ERROR: won't rename users across different types" ->
   requests evs = [(Bind (LDAPSERVER cfg) (USER cfg), true);
                   (Search (baseDN cfg) ("uid=" ++ username), true)] /\
   getUserType cfg username <> getUserType cfg newusername /\
   dir w' = dir w) /\
  (o = Next "ERROR: newusername already taken!" ->
   requests evs = [(Bind (LDAPSERVER cfg) (USER cfg), true);
                   (Search (baseDN cfg) ("uid=" ++ username), true);
                   (Search (baseDN cfg) ("uid=" ++ newusername), true)] /\
   username <> newusername /\
   dir w' = dir w).
Proof.
  pose proof (update_paths username newusername uidNumber gidNumber
                givenName fullName sn employeeType dNumber ou
                businessCategory w) as H.
  destruct (update _ _ _ _ _ _ _ _ _ _ _ _ _ w) as [[o w'] evs].
  exact (proj2 H).
Qed.

End Outcomes.

(* ===================================================================== *)
(** * Names and types at the edges                                       *)
(* ===================================================================== *)

Section Edges.

Variable cfg : Settings.

(** X15. The DN [buildDN] computes tells the user: two usernames without a
    comma never get the same DN. *)
Theorem buildDN_names_one_user (u v : string) (w w0 : World) :
  wf_cfg cfg = true ->
  Text.comma_free u = true ->
  Text.comma_free v = true ->
  fst (fst (buildDN (R:=unit) cfg u w))
  = fst (fst (buildDN (R:=unit) cfg v w0)) ->
  u = v.
Proof.
  intros Hcfg Hu Hv. rewrite !buildDN_run. cbn [fst]. intros H.
  assert (Hwf : wf_entry {| e_uid := u; e_parent := ou_of cfg u;
                            e_classes := []; e_attrs := [] |} = true).
  { unfold wf_entry. cbn [e_uid e_parent].
    now rewrite Hu, (@ou_of_ok cfg u Hcfg). }
  assert (Hdn : "uid=" ++ u ++ ou_of cfg u = "uid=" ++ v ++ ou_of cfg v)
    by congruence.
  destruct (@dn_of_inj _ v (ou_of cfg v) Hwf Hv (@ou_of_ok cfg v Hcfg) Hdn)
    as [Huv _].
  exact Huv.
Qed.

(** X16. With an empty student pattern, as in the settings file the script
    ships with, every username is a student's: the empty string occurs
    in every string. *)
Theorem empty_pattern_makes_students (username : string) :
  STUPATTERN cfg = "" -> getUserType cfg username = "STU".
Proof.
  intros H. unfold getUserType. rewrite H. now destruct username.
Qed.

(** X17. A username of at most four characters loses all of them to
    [username[0:-4]]: it is a guest's exactly when the guest pattern is
    empty, unless the student pattern occurs in it. *)
Theorem short_name_type (username : string) :
  String.length username <= 4 ->
  getUserType cfg username
  = if Text.contains (STUPATTERN cfg) username then "STU"
    else if String.eqb (GSTPATTERN cfg) "" then "GST"
    else "EMP".
Proof.
  intros Hlen. unfold getUserType, Text.slice_0_m4.
  replace (String.length username - 4) with 0 by lia.
  now destruct username.
Qed.

End Edges.

(* ===================================================================== *)
(** * The statements above at sample inputs                              *)
(* ===================================================================== *)

Lemma failed_bind_ends_the_call_witness :
  let w := Sample.world [Sample.staff "alice" Sample.person] [true] in
  connect_failed Sample.cfg w
    (create Sample.cfg Sample.sha1_b64 Sample.in_order "alice" "Jane"
            "Jane Doe" "Doe" "ADM" "D0000001" "Biology" "staff" "pw1" w) /\
  connect_failed Sample.cfg w
    (update Sample.cfg Sample.in_order "alice" "alicia" "15549" "15549"
            "Jane" "Jane Doe" "Doe" "ADM" "D0000001" "Biology" "staff" w) /\
  connect_failed Sample.cfg w (delete Sample.cfg "alice" w).
Proof.
  apply (@failed_bind_ends_the_call Sample.cfg Sample.sha1_b64
           Sample.in_order in_order_perm "alice" "alicia" "15549" "15549"
           "Jane" "Jane Doe" "Doe" "ADM" "D0000001" "Biology" "staff" "pw1"
           (Sample.world [Sample.staff "alice" Sample.person] [true]));
    reflexivity.
Defined.

Lemma unknown_actions_never_reach_server_witness :
  let '(_, w', evs) :=
    main Sample.cfg Sample.sha1_b64 Sample.in_order "in.json" "out.csv"
         [Sample.row "disable" "alice" "alice"; Sample.row "" "bob" "bob"]
         (Sample.world [Sample.staff "alice" Sample.person] [true]) in
  requests evs = [] /\
  dir w' = [Sample.staff "alice" Sample.person] /\
  exists n,
    n <= 2 /\
    report evs
    = ["action"; "username"; "result"]
        :: map (fun row => [r_action row; r_username row;
                            "ERROR: Unrecognized action"])
               (firstn n [Sample.row "disable" "alice" "alice";
                          Sample.row "" "bob" "bob"]).
Proof.
  apply (@unknown_actions_never_reach_server Sample.cfg Sample.sha1_b64
           Sample.in_order "in.json" "out.csv"
           [Sample.row "disable" "alice" "alice"; Sample.row "" "bob" "bob"]
           (Sample.world [Sample.staff "alice" Sample.person] [true])).
  reflexivity.
Defined.



Lemma buildDN_names_one_user_witness : "alice" = "alice".
Proof.
  apply (@buildDN_names_one_user Sample.cfg "alice" "alice"
           (Sample.world [] []) (Sample.world [] [true]));
    reflexivity.
Defined.

Lemma empty_pattern_makes_students_witness :
  getUserType shipped_settings "gst1234" = "STU".
Proof.
  apply (@empty_pattern_makes_students shipped_settings "gst1234").
  reflexivity.
Defined.

Lemma short_name_type_witness :
  getUserType Sample.cfg "gst"
  = if Text.contains (STUPATTERN Sample.cfg) "gst" then "STU"
    else if String.eqb (GSTPATTERN Sample.cfg) "" then "GST"
    else "EMP".
Proof.
  apply (@short_name_type Sample.cfg "gst"). simpl. lia.
Defined.
